(** * Appointments page: conflict detection and end-time derivation

    Shallow embedding of the scheduling logic of
    [src/react-app/pages/Appointments - Copia.tsx]:

    - the [useEffect] that fills in [price] and [end_date] when a service or
      a start time is chosen (source lines 103-114),
    - [handleOpenModal], which loads an appointment into the edit form
      (lines 151-174),
    - [onSubmit], which looks for a conflicting appointment, validates the
      references and calls the store (lines 182-228).

    JavaScript numbers that hold money are IEEE binary64 values
    ([spec_float] with the operations of [SpecFloat]); identifiers are
    integers; [moment] objects are epoch milliseconds or the invalid date,
    and a date leaves the range of [Date] as in JavaScript.  The time zone
    of the machine is a parameter ([Host]): its offset depends on the
    instant, and a wall-clock time is read the way [Date] reads it.
    A handler is a function on the page's state; a React state setter takes
    effect at once, and the store's two writing functions, which live
    outside the page, are parameters. *)

From Stdlib Require Import ZArith List Bool String Ascii Lia Sorted Permutation.
From Stdlib Require Import Floats.
From stdpp Require Import base list.
Import ListNotations.

Local Open Scope Z_scope.

(** ** The [moment] library, as far as the page uses it *)

Module Moment.

(** A [moment] object: [Some ms] is a valid date, [ms] its [valueOf()]
    (milliseconds since the epoch); [None] is moment's invalid date. *)
Abbreviation t := (option Z) (only parsing).

Definition ms_per_minute : Z := 60000.

(** The largest time value of a [Date]: 100 000 000 days either side of
    the epoch. *)
Definition max_time : Z := 8640000000000000.

(** [TimeClip]: what [Date] keeps of a time value; outside the range the
    date is invalid. *)
Definition time_clip (x : Z) : t :=
  if Z.abs x <=? max_time then Some x else None.

(** [a.isBefore(b)]: false as soon as one side is invalid. *)
Definition isBefore (a b : t) : bool :=
  match a, b with
  | Some x, Some y => x <? y
  | _, _ => false
  end.

(** [a.isAfter(b)]. *)
Definition isAfter (a b : t) : bool :=
  match a, b with
  | Some x, Some y => y <? x
  | _, _ => false
  end.

(** [a.add(n, 'minutes')]: [setTime(valueOf() + n * 60000)] on the date
    inside a valid moment, which clips; an invalid moment stays as it is. *)
Definition add_minutes (a : t) (n : Z) : t :=
  match a with
  | Some x => time_clip (x + n * ms_per_minute)
  | None => None
  end.

(** [a.diff(b, 'minutes')]: the difference truncated towards zero
    (source line 386); [None] stands for [NaN]. *)
Definition diff_minutes (a b : t) : option Z :=
  match a, b with
  | Some x, Some y => Some (Z.quot (x - y) ms_per_minute)
  | _, _ => None
  end.

End Moment.

(** The text of a date field.  The form's [datetime-local] inputs and every
    [format('YYYY-MM-DDTHH:mm')] produce a wall-clock minute; the form
    starts with the empty string ([defaultFormValues]); formatting the
    invalid date gives moment's ["Invalid date"]. *)
Inductive DateText : Type :=
  | EmptyText
  | InvalidDateText
  | LocalMinute (m : Z).

(** [if (watchedStartDate)]: only the empty string is falsy. *)
Definition truthy_text (s : DateText) : bool :=
  match s with
  | EmptyText => false
  | _ => true
  end.

Definition ms_per_day : Z := 86400000.

(** The wall-clock minutes of the years 0100 to 9999, counted from
    1970-01-01T00:00.  These are the texts that moment reads through
    [new Date(year, month, day, hour, minute)]: its ISO pattern wants a year
    of four digits, and it builds the years before 100 in two steps. *)
Definition plain_year (m : Z) : bool :=
  (-983524320 <=? m) && (m <=? 4223371679).

(** What the page takes from the machine it runs on.  The two offsets are
    ECMAScript's [LocalTZA], in milliseconds: [offset_at t] is
    [LocalTZA(t, true)], the offset of local time from UTC at the instant
    [t]; [offset_of_local l] is [LocalTZA(l, false)], the offset with which
    the local time value [l] is read (a wall-clock time that a change of
    clock repeats or skips is read with one of the two offsets, as the
    engine decides).  [parse_other m] is what [moment] makes of a date text
    whose year is not one of 0100 to 9999. *)
Record Host : Type := {
  offset_at : Z -> Z;
  offset_of_local : Z -> Z;
  parse_other : Z -> option Z
}.

Section Zone.

Variable host : Host.

(** [LocalTime(t)] and [UTC(l)] of ECMAScript: the local time value of an
    instant, and the instant a local time value is read as. *)
Definition LocalTime (t : Z) : Z := t + offset_at host t.

Definition UTC (l : Z) : Z := l - offset_of_local host l.

(** [moment(text)]: the text is read as local time, through
    [new Date(year, month, day, hour, minute)]. *)
Definition moment (s : DateText) : Moment.t :=
  match s with
  | LocalMinute m =>
      if plain_year m then Moment.time_clip (UTC (m * Moment.ms_per_minute))
      else parse_other host m
  | _ => None
  end.

(** [m.format('YYYY-MM-DDTHH:mm')]: the local wall clock at the instant,
    seconds and milliseconds dropped. *)
Definition format (a : Moment.t) : DateText :=
  match a with
  | Some x => LocalMinute (LocalTime x / Moment.ms_per_minute)
  | None => InvalidDateText
  end.

(** [a.add(n, 'day')]: [setDate(getDate() + n)] on the date inside a valid
    moment.  The calendar day moves and the wall-clock time stays; the
    result is the instant that wall-clock time is read as. *)
Definition add_days (a : Moment.t) (n : Z) : Moment.t :=
  match a with
  | Some x => Moment.time_clip (UTC (LocalTime x + n * ms_per_day))
  | None => None
  end.

(** [m.format('HH:mm')] shows the minute of the local day. *)
Definition minute_of_day (x : Z) : Z := (LocalTime x / Moment.ms_per_minute) mod 1440.

End Zone.

(** A zone that keeps one offset, given in minutes (-180 in Sao Paulo, which
    has changed no clock since 2019); it reads no text outside the years
    0100 to 9999. *)
Definition fixed_zone (minutes : Z) : Host := {|
  offset_at := fun _ => minutes * Moment.ms_per_minute;
  offset_of_local := fun _ => minutes * Moment.ms_per_minute;
  parse_other := fun _ => None
|}.

(** A zone that changes its clock once: the offset is [before] up to the
    instant [change] and [after] from then on (milliseconds).  A wall-clock
    time that the change repeats or skips is read with the offset before
    the change, as ECMAScript asks. *)
Definition zone_with_change (change before after : Z) : Host := {|
  offset_at := fun t => if t <? change then before else after;
  offset_of_local := fun l =>
    if l - before <? change then before
    else if change <=? l - after then after
    else before;
  parse_other := fun _ => None
|}.

(** New York around 2024-03-10, when 02:00 became 03:00 (07:00 UTC): five
    hours behind UTC before, four after. *)
Definition new_york_spring_2024 : Host :=
  zone_with_change 1710054000000 (-18000000) (-14400000).

(** New York around 2024-11-03, when 02:00 became 01:00 (06:00 UTC). *)
Definition new_york_autumn_2024 : Host :=
  zone_with_change 1730613600000 (-14400000) (-18000000).

(** ** Data model ([shared/types], read from its uses in the page) *)

(** A JavaScript number that carries an amount of money. *)
Definition number := spec_float.

Record ServiceType : Type := {
  service_id_of : Z;
  service_name : string;
  service_price : number;      (* minor currency units *)
  duration : Z                 (* minutes *)
}.

Record ClientType : Type := {
  client_id_of : Z;
  client_name_of : string
}.

Record ProfessionalType : Type := {
  professional_id_of : Z;
  professional_name : string
}.

(** An appointment of the store.  [id] is optional in the source
    ([appointmentToDelete.id!]); the two dates are kept as the instants
    [moment(app.appointment_date)] and [moment(app.end_date)] read. *)
Record AppointmentType : Type := {
  id : option Z;
  client_id : Z;
  professional_id : Z;
  service_id : Z;
  price : number;
  appointment_date : Z;
  end_date : Z;
  attended : bool;
  client_name : string;
  professional : string;
  service : string
}.

(** [AppointmentFormData].  The numeric fields are [undefined] until the
    user picks a value ([defaultFormValues]). *)
Record AppointmentFormData : Type := {
  f_client_id : option Z;
  f_professional_id : option Z;
  f_service_id : option Z;
  f_price : option number;
  f_appointment_date : DateText;
  f_end_date : DateText;
  f_attended : option bool
}.

Definition defaultFormValues : AppointmentFormData := {|
  f_client_id := None;
  f_professional_id := None;
  f_service_id := None;
  f_price := None;
  f_appointment_date := EmptyText;
  f_end_date := EmptyText;
  f_attended := Some false
|}.

(** [Number(x)] on an optional integer field: [None] is [NaN]. *)
Definition Number (x : option Z) : option Z := x.

(** [a === Number(x)] for a stored integer [a]: [NaN] equals nothing. *)
Definition strict_eq_num (a : Z) (n : option Z) : bool :=
  match n with
  | Some b => a =? b
  | None => false
  end.

(** [a === b] on two optional ids: [undefined === undefined] holds. *)
Definition strict_eq_id (a b : option Z) : bool :=
  match a, b with
  | Some x, Some y => x =? y
  | None, None => true
  | _, _ => false
  end.

(** ** Conflict detection ([onSubmit], lines 187-193)

    The test as a function of the dates involved.  [conflict_callback]
    below is the same code on moment objects; [find_conflicting_run] shows
    that both give the same answer. *)

Section Conflict.

Variable editingAppointment : option AppointmentType.
Variable professionalId : option Z.
Variables newStart newEnd : Moment.t.

(** [editingAppointment && app.id === editingAppointment.id] *)
Definition excluded (app : AppointmentType) : bool :=
  match editingAppointment with
  | Some ed => strict_eq_id (id app) (id ed)
  | None => false
  end.

(** The callback handed to [appointments.find]. *)
Definition conflicts (app : AppointmentType) : bool :=
  if excluded app then false
  else if negb (strict_eq_num (professional_id app) professionalId) then false
  else
    let existingStart := Some (appointment_date app) in
    let existingEnd := Some (end_date app) in
    Moment.isBefore newStart existingEnd && Moment.isAfter newEnd existingStart.

(** [appointments.find(...)]: the first element, in array order, on which
    the callback returns true. *)
Definition conflictingAppointment (appointments : list AppointmentType)
  : option AppointmentType :=
  find conflicts appointments.

(** [if (conflictingAppointment)] *)
Definition has_conflict (appointments : list AppointmentType) : bool :=
  match conflictingAppointment appointments with
  | Some _ => true
  | None => false
  end.

End Conflict.

(** ** End-time derivation ([useEffect], lines 103-114)

    The derived text as a function of the start text and the service;
    [newEndDate_of] below is the same expression on moment objects. *)

Section Derive.

Variable host : Host.

(** [moment(watchedStartDate).add(selectedService.duration, 'minutes')
     .format('YYYY-MM-DDTHH:mm')] *)
Definition derive_end_time (watchedStartDate : DateText) (selectedService : ServiceType)
  : DateText :=
  format host
    (Moment.add_minutes (moment host watchedStartDate) (duration selectedService)).

End Derive.

(** ** Money: JavaScript numbers as IEEE binary64 *)

(** The number an integer literal or integer value denotes. *)
Definition of_Z (n : Z) : number := binary_normalize prec emax n 0 false.

Definition hundred : number := Eval vm_compute in of_Z 100.

(** [Number(x)] on an optional numeric field: [undefined] becomes [NaN]. *)
Definition Number_f (x : option number) : number :=
  match x with
  | Some v => v
  | None => S754_nan
  end.

(** [Math.round(x)]: [x] itself when it is not finite or already integral;
    otherwise the integer closest to [x], the one towards +infinity on a
    tie; a result of zero keeps the sign of [x]. *)
Definition Math_round (x : number) : number :=
  match x with
  | S754_finite s m e =>
      if 0 <=? e then x
      else
        let v := cond_Zopp s (Z.pos m) in
        let k := (2 * v + 2 ^ (- e)) / 2 ^ (- e + 1) in
        if k =? 0 then S754_zero s else of_Z k
  | _ => x
  end.

(** [appointment.price / 100] ([handleOpenModal], line 158) and
    [selectedService.price / 100] (line 107). *)
Definition form_price (stored : number) : number := SF64div stored hundred.

(** [Math.round(Number(data.price) * 100)] ([onSubmit], line 207). *)
Definition submitted_price (field : option number) : number :=
  Math_round (SF64mul (Number_f field) hundred).

(** ** The page's state *)

Inductive Toast : Type :=
  | showError (title message : string)
  | showSuccess (title : string).

(** [appointmentData], and [{...editingAppointment, ...appointmentData}]
    when an appointment is edited: the fields the page computes.  [a_id] is
    the id taken over from [editingAppointment]. *)
Record AppointmentData : Type := {
  a_id : option Z;
  a_client_id : option Z;
  a_professional_id : option Z;
  a_service_id : option Z;
  a_price : number;
  a_appointment_date : DateText;
  a_end_date : DateText;
  a_attended : bool;
  a_client_name : string;
  a_professional : string;
  a_service : string
}.

Inductive StoreCall : Type :=
  | call_addAppointment (data : AppointmentData) (user_id : string)
  | call_updateAppointment (data : AppointmentData).

Record World : Type := {
  (* useAppStore *)
  w_appointments : list AppointmentType;
  w_clients : list ClientType;
  w_professionals : list ProfessionalType;
  w_services : list ServiceType;
  (* useSupabaseAuth: user.id *)
  w_user : option string;
  (* useState; [selectedDate] is [undefined] or a [Date], which can be
     the invalid date *)
  w_selectedDate : option Moment.t;
  w_selectedProfessionalId : option Z;
  w_isModalOpen : bool;
  w_editingAppointment : option AppointmentType;
  (* useForm *)
  w_form : AppointmentFormData;
  (* new Date() *)
  w_now : Z;
  (* what the page sent out *)
  w_toasts : list Toast;
  w_store_calls : list StoreCall;
  (* the moment objects created so far, by address; [add] updates one in
     place *)
  w_moments : list Moment.t
}.

Definition set_moments (ms : list Moment.t) (w : World) : World :=
  {| w_appointments := w_appointments w; w_clients := w_clients w;
     w_professionals := w_professionals w; w_services := w_services w;
     w_user := w_user w; w_selectedDate := w_selectedDate w;
     w_selectedProfessionalId := w_selectedProfessionalId w;
     w_isModalOpen := w_isModalOpen w;
     w_editingAppointment := w_editingAppointment w;
     w_form := w_form w; w_now := w_now w; w_toasts := w_toasts w;
     w_store_calls := w_store_calls w; w_moments := ms |}.

Definition set_toasts (ts : list Toast) (w : World) : World :=
  {| w_appointments := w_appointments w; w_clients := w_clients w;
     w_professionals := w_professionals w; w_services := w_services w;
     w_user := w_user w; w_selectedDate := w_selectedDate w;
     w_selectedProfessionalId := w_selectedProfessionalId w;
     w_isModalOpen := w_isModalOpen w;
     w_editingAppointment := w_editingAppointment w;
     w_form := w_form w; w_now := w_now w; w_toasts := ts;
     w_store_calls := w_store_calls w; w_moments := w_moments w |}.

Definition set_store_calls (cs : list StoreCall) (w : World) : World :=
  {| w_appointments := w_appointments w; w_clients := w_clients w;
     w_professionals := w_professionals w; w_services := w_services w;
     w_user := w_user w; w_selectedDate := w_selectedDate w;
     w_selectedProfessionalId := w_selectedProfessionalId w;
     w_isModalOpen := w_isModalOpen w;
     w_editingAppointment := w_editingAppointment w;
     w_form := w_form w; w_now := w_now w; w_toasts := w_toasts w;
     w_store_calls := cs; w_moments := w_moments w |}.

Definition set_form (f : AppointmentFormData) (w : World) : World :=
  {| w_appointments := w_appointments w; w_clients := w_clients w;
     w_professionals := w_professionals w; w_services := w_services w;
     w_user := w_user w; w_selectedDate := w_selectedDate w;
     w_selectedProfessionalId := w_selectedProfessionalId w;
     w_isModalOpen := w_isModalOpen w;
     w_editingAppointment := w_editingAppointment w;
     w_form := f; w_now := w_now w; w_toasts := w_toasts w;
     w_store_calls := w_store_calls w; w_moments := w_moments w |}.

Definition set_isModalOpen (b : bool) (w : World) : World :=
  {| w_appointments := w_appointments w; w_clients := w_clients w;
     w_professionals := w_professionals w; w_services := w_services w;
     w_user := w_user w; w_selectedDate := w_selectedDate w;
     w_selectedProfessionalId := w_selectedProfessionalId w;
     w_isModalOpen := b;
     w_editingAppointment := w_editingAppointment w;
     w_form := w_form w; w_now := w_now w; w_toasts := w_toasts w;
     w_store_calls := w_store_calls w; w_moments := w_moments w |}.

Definition set_editingAppointment (e : option AppointmentType) (w : World) : World :=
  {| w_appointments := w_appointments w; w_clients := w_clients w;
     w_professionals := w_professionals w; w_services := w_services w;
     w_user := w_user w; w_selectedDate := w_selectedDate w;
     w_selectedProfessionalId := w_selectedProfessionalId w;
     w_isModalOpen := w_isModalOpen w;
     w_editingAppointment := e;
     w_form := w_form w; w_now := w_now w; w_toasts := w_toasts w;
     w_store_calls := w_store_calls w; w_moments := w_moments w |}.

(** A handler of the page: a computation on the page's state. *)
Definition M (A : Type) : Type := World -> A * World.

Definition ret {A} (a : A) : M A := fun w => (a, w).

Definition bind {A B} (c : M A) (k : A -> M B) : M B :=
  fun w => let (a, w') := c w in k a w'.

Definition gets {A} (f : World -> A) : M A := fun w => (f w, w).

Definition modify (f : World -> World) : M unit := fun w => (tt, f w).

Declare Scope page_scope.
Delimit Scope page_scope with page.
Notation "x <- c ;; k" := (bind c (fun x => k))
  (at level 100, c at next level, right associativity) : page_scope.
Notation "c ;; k" := (bind c (fun _ => k))
  (at level 100, right associativity) : page_scope.
Local Open Scope page_scope.

(** *** Moment objects *)

(** The date a moment object holds; an address that was never handed out
    reads as the invalid date. *)
Definition read_moment (r : nat) (w : World) : Moment.t :=
  default None (w_moments w !! r).

(** [moment(...)]: a new object. *)
Definition new_moment (v : Moment.t) : M nat :=
  fun w => (length (w_moments w), set_moments (w_moments w ++ [v]) w).

(** [r.add(n, 'minutes')] changes the object [r] itself and returns it. *)
Definition obj_add (r : nat) (n : Z) : M nat :=
  fun w =>
    (r, set_moments (<[r := Moment.add_minutes (read_moment r w) n]> (w_moments w)) w).

Definition obj_isBefore (a b : nat) : M bool :=
  gets (fun w => Moment.isBefore (read_moment a w) (read_moment b w)).

Definition obj_isAfter (a b : nat) : M bool :=
  gets (fun w => Moment.isAfter (read_moment a w) (read_moment b w)).

(** [xs.find(cb)] with a callback that runs on the page's state. *)
Fixpoint array_find {A} (cb : A -> M bool) (xs : list A) : M (option A) :=
  match xs with
  | [] => ret None
  | x :: rest =>
      b <- cb x ;;
      if b then ret (Some x) else array_find cb rest
  end.

Definition toast (t : Toast) : M unit :=
  modify (fun w => set_toasts (w_toasts w ++ [t]) w).

Definition reset (f : AppointmentFormData) : M unit := modify (set_form f).

(** [x ?? d] *)
Definition nullish {A} (x : option A) (d : A) : A := default d x.

(** [watchedServiceId && ...]: [undefined] and [0] are falsy. *)
Definition truthy_num (x : option Z) : bool :=
  match x with
  | Some n => negb (n =? 0)
  | None => false
  end.

Section Page.

Variable host : Host.

(** The store's [addAppointment] and [updateAppointment] are not part of
    the page: whatever they do to the state, they resolve ([true]) or
    reject ([false]). *)
Variable store_add : AppointmentData -> string -> World -> bool * World.
Variable store_update : AppointmentData -> World -> bool * World.

Definition obj_format (r : nat) : M DateText :=
  gets (fun w => format host (read_moment r w)).

Definition addAppointment (d : AppointmentData) (user_id : string) : M bool :=
  fun w =>
    store_add d user_id
      (set_store_calls (w_store_calls w ++ [call_addAppointment d user_id]) w).

Definition updateAppointment (d : AppointmentData) : M bool :=
  fun w =>
    store_update d
      (set_store_calls (w_store_calls w ++ [call_updateAppointment d]) w).

(** [moment(watchedStartDate).add(selectedService.duration, 'minutes')
     .format('YYYY-MM-DDTHH:mm')] on moment objects (line 109). *)
Definition newEndDate_of (watchedStartDate : DateText) (selectedService : ServiceType)
  : M DateText :=
  m <- new_moment (moment host watchedStartDate) ;;
  m' <- obj_add m (duration selectedService) ;;
  obj_format m'.

(** Lines 103-114. *)
Definition end_date_effect : M unit :=
  watchedServiceId <- gets (fun w => f_service_id (w_form w)) ;;
  watchedStartDate <- gets (fun w => f_appointment_date (w_form w)) ;;
  services <- gets w_services ;;
  if truthy_num watchedServiceId && (0 <? Z.of_nat (length services)) then
    match find (fun s => strict_eq_num (service_id_of s) (Number watchedServiceId))
               services with
    | Some selectedService =>
        modify (fun w =>
          set_form {| f_client_id := f_client_id (w_form w);
                      f_professional_id := f_professional_id (w_form w);
                      f_service_id := f_service_id (w_form w);
                      f_price := Some (form_price (service_price selectedService));
                      f_appointment_date := f_appointment_date (w_form w);
                      f_end_date := f_end_date (w_form w);
                      f_attended := f_attended (w_form w) |} w) ;;
        if truthy_text watchedStartDate then
          newEndDate <- newEndDate_of watchedStartDate selectedService ;;
          modify (fun w =>
            set_form {| f_client_id := f_client_id (w_form w);
                        f_professional_id := f_professional_id (w_form w);
                        f_service_id := f_service_id (w_form w);
                        f_price := f_price (w_form w);
                        f_appointment_date := f_appointment_date (w_form w);
                        f_end_date := newEndDate;
                        f_attended := f_attended (w_form w) |} w)
        else ret tt
    | None => ret tt
    end
  else ret tt.

(** Lines 151-174. *)
Definition handleOpenModal (appointment : option AppointmentType) (slotDate : option Z)
  : M unit :=
  match appointment with
  | Some a =>
      modify (set_editingAppointment (Some a)) ;;
      s <- new_moment (Some (appointment_date a)) ;;
      start_text <- obj_format s ;;
      e <- new_moment (Some (end_date a)) ;;
      end_text <- obj_format e ;;
      reset {| f_client_id := Some (client_id a);
               f_professional_id := Some (professional_id a);
               f_service_id := Some (service_id a);
               f_price := Some (form_price (price a));
               f_appointment_date := start_text;
               f_end_date := end_text;
               f_attended := Some (attended a) |}
  | None =>
      modify (set_editingAppointment None) ;;
      currentDate <- gets w_selectedDate ;;
      now <- gets w_now ;;
      selectedProfessionalId <- gets w_selectedProfessionalId ;;
      let initialDate : Moment.t :=
        match slotDate with
        | Some d => Some d
        | None => nullish currentDate (Some now)
        end in
      s <- new_moment initialDate ;;
      start_text <- obj_format s ;;
      e <- new_moment initialDate ;;
      e' <- obj_add e 30 ;;
      end_text <- obj_format e' ;;
      reset {| f_client_id := f_client_id defaultFormValues;
               f_professional_id := selectedProfessionalId;
               f_service_id := f_service_id defaultFormValues;
               f_price := f_price defaultFormValues;
               f_appointment_date := start_text;
               f_end_date := end_text;
               f_attended := f_attended defaultFormValues |}
  end ;;
  modify (set_isModalOpen true).

(** Lines 176-180. *)
Definition handleCloseModal : M unit :=
  modify (set_isModalOpen false) ;;
  modify (set_editingAppointment None) ;;
  reset defaultFormValues.

(** The callback of [appointments.find] in [onSubmit], lines 187-193. *)
Definition conflict_callback (editingAppointment : option AppointmentType)
    (professionalId : option Z) (newStart newEnd : nat) (app : AppointmentType)
  : M bool :=
  if match editingAppointment with
     | Some ed => strict_eq_id (id app) (id ed)
     | None => false
     end
  then ret false
  else if negb (strict_eq_num (professional_id app) professionalId) then ret false
  else
    existingStart <- new_moment (Some (appointment_date app)) ;;
    existingEnd <- new_moment (Some (end_date app)) ;;
    before <- obj_isBefore newStart existingEnd ;;
    if before then obj_isAfter newEnd existingStart else ret false.

(** [appointmentData] (lines 205-215), with the id that the spread of
    [editingAppointment] contributes when an appointment is edited
    (line 218). *)
Definition appointmentData_of (editingAppointment : option AppointmentType)
    (data : AppointmentFormData) (client : ClientType)
    (professional : ProfessionalType) (service : ServiceType) : AppointmentData := {|
  a_id := match editingAppointment with
          | Some ed => id ed
          | None => None
          end;
  a_client_id := Number (f_client_id data);
  a_professional_id := Number (f_professional_id data);
  a_service_id := Number (f_service_id data);
  a_price := submitted_price (f_price data);
  a_appointment_date := f_appointment_date data;
  a_end_date := f_end_date data;
  a_attended := nullish (f_attended data) false;
  a_client_name := client_name_of client;
  a_professional := professional_name professional;
  a_service := service_name service
|}.

(** Lines 184-193: the search for [conflictingAppointment]. *)
Definition find_conflicting (data : AppointmentFormData) : M (option AppointmentType) :=
  newStart <- new_moment (moment host (f_appointment_date data)) ;;
  newEnd <- new_moment (moment host (f_end_date data)) ;;
  let professionalId := Number (f_professional_id data) in
  editingAppointment <- gets w_editingAppointment ;;
  appointments <- gets w_appointments ;;
  array_find (conflict_callback editingAppointment professionalId newStart newEnd)
             appointments.

(** Lines 182-228. *)
Definition onSubmit (data : AppointmentFormData) : M unit :=
  user <- gets w_user ;;
  match user with
  | None => ret tt
  | Some user_id =>
      let professionalId := Number (f_professional_id data) in
      editingAppointment <- gets w_editingAppointment ;;
      conflicting <- find_conflicting data ;;
      match conflicting with
      | Some _ =>
          toast (showError "Conflito de Horário"
                           "O profissional já tem um agendamento neste horário.")
      | None =>
          clients <- gets w_clients ;;
          professionals <- gets w_professionals ;;
          services <- gets w_services ;;
          match
            find (fun c => strict_eq_num (client_id_of c) (Number (f_client_id data)))
                 clients,
            find (fun p => strict_eq_num (professional_id_of p)
                                         (Number (f_professional_id data)))
                 professionals,
            find (fun s => strict_eq_num (service_id_of s) (Number (f_service_id data)))
                 services
          with
          | Some client, Some professional, Some service =>
              let appointmentData :=
                appointmentData_of editingAppointment data client professional service in
              match editingAppointment with
              | Some _ =>
                  ok <- updateAppointment appointmentData ;;
                  if ok then
                    toast (showSuccess "Agendamento atualizado!") ;;
                    handleCloseModal
                  else
                    toast (showError "Não foi possível salvar"
                                     "Verifique os dados e tente novamente.")
              | None =>
                  ok <- addAppointment appointmentData user_id ;;
                  if ok then
                    toast (showSuccess "Agendamento criado!") ;;
                    handleCloseModal
                  else
                    toast (showError "Não foi possível salvar"
                                     "Verifique os dados e tente novamente.")
              end
          | _, _, _ =>
              toast (showError "Dados inválidos."
                               "Cliente, profissional ou serviço não encontrado.")
          end
      end
  end.

End Page.

(** The appointment of the spec's example: professional 1, 10:00 to 10:30
    (minutes of the day, in milliseconds). *)
Definition example_existing : AppointmentType := {|
  id := Some 7; client_id := 3; professional_id := 1; service_id := 5;
  price := of_Z 5000;
  appointment_date := 600 * 60000; end_date := 630 * 60000;
  attended := false;
  client_name := "Ana"; professional := "Bia"; service := "Corte"
|}.

(** A page with the spec's example in the store: a signed-in user, the
    appointment of professional 1 from 10:00 to 10:30, nothing being
    edited, the modal open on a new appointment. *)
Definition example_world : World := {|
  w_appointments := [example_existing];
  w_clients := [{| client_id_of := 3; client_name_of := "Ana" |}];
  w_professionals := [{| professional_id_of := 1; professional_name := "Bia" |}];
  w_services := [{| service_id_of := 5; service_name := "Corte";
                    service_price := of_Z 5000; duration := 30 |}];
  w_user := Some "user-1"%string;
  w_selectedDate := None;
  w_selectedProfessionalId := None;
  w_isModalOpen := true;
  w_editingAppointment := None;
  w_form := defaultFormValues;
  w_now := 0;
  w_toasts := [];
  w_store_calls := [];
  w_moments := []
|}.

(** The form filled in for professional 1, 10:15 to 10:45. *)
Definition example_form : AppointmentFormData := {|
  f_client_id := Some 3;
  f_professional_id := Some 1;
  f_service_id := Some 5;
  f_price := Some (form_price (of_Z 5000));
  f_appointment_date := LocalMinute 615;
  f_end_date := LocalMinute 645;
  f_attended := Some false
|}.

(** A state that differs from [w] by new moment objects only: the store's
    collections are the same and every object that existed reads as before. *)
Definition only_new_moments (w w' : World) : Prop :=
  exists extra, w' = set_moments (w_moments w ++ extra) w.

(** ** Rounding, stated on integers

    [loc_rel D N m l]: the exact value [N / D] (with [0 < D]) lies at the
    location [l] above the integer [m], as [SpecFloat]'s rounding reads
    locations. *)
Definition loc_rel (D N m : Z) (l : location) : Prop :=
  match l with
  | loc_Exact => N = m * D
  | loc_Inexact Lt => m * D < N /\ 2 * N < (2 * m + 1) * D
  | loc_Inexact Eq => 2 * N = (2 * m + 1) * D
  | loc_Inexact Gt => (2 * m + 1) * D < 2 * N /\ N < (m + 1) * D
  end.

(** The same for a mantissa with its round and sticky bits. *)
Definition rec_rel (D N : Z) (mrs : shr_record) : Prop :=
  loc_rel D N (shr_m mrs) (loc_of_shr_record mrs).

(** The largest price, in minor units, that survives the edit form:
    [100 * 2^45 + 1]. *)
Definition max_round_trip_price : Z := 3518437208883201.

(** ** The day view (lines 123-149) *)

Definition set_selectedDate (d : option Moment.t) (w : World) : World :=
  {| w_appointments := w_appointments w; w_clients := w_clients w;
     w_professionals := w_professionals w; w_services := w_services w;
     w_user := w_user w; w_selectedDate := d;
     w_selectedProfessionalId := w_selectedProfessionalId w;
     w_isModalOpen := w_isModalOpen w;
     w_editingAppointment := w_editingAppointment w;
     w_form := w_form w; w_now := w_now w; w_toasts := w_toasts w;
     w_store_calls := w_store_calls w; w_moments := w_moments w |}.

Definition set_selectedProfessionalId (p : option Z) (w : World) : World :=
  {| w_appointments := w_appointments w; w_clients := w_clients w;
     w_professionals := w_professionals w; w_services := w_services w;
     w_user := w_user w; w_selectedDate := w_selectedDate w;
     w_selectedProfessionalId := p;
     w_isModalOpen := w_isModalOpen w;
     w_editingAppointment := w_editingAppointment w;
     w_form := w_form w; w_now := w_now w; w_toasts := w_toasts w;
     w_store_calls := w_store_calls w; w_moments := w_moments w |}.

(** [r.toDate()]: a [Date] of the same time value. *)
Definition obj_toDate (r : nat) : M Moment.t := gets (read_moment r).

Inductive Direction : Type := prev | next.

Section Navigation.

Variable host : Host.

(** [r.add(n, 'day')]; the object [r] itself changes. *)
Definition obj_add_days (r : nat) (n : Z) : M nat :=
  fun w =>
    (r, set_moments (<[r := add_days host (read_moment r w) n]> (w_moments w)) w).

(** Lines 146-149.  [currentDate || new Date()]: a [Date] is truthy, the
    invalid one too. *)
Definition handleDayNavigation (direction : Direction) : M unit :=
  currentDate <- gets w_selectedDate ;;
  now <- gets w_now ;;
  m <- new_moment (match currentDate with
                   | Some d => d
                   | None => Some now
                   end) ;;
  m' <- obj_add_days m (match direction with prev => -1 | next => 1 end) ;;
  newDate <- obj_toDate m' ;;
  modify (set_selectedDate (Some newDate)).

End Navigation.

Section Calendar.

(** The day view compares instants with the two local midnights around an
    appointment.  [utc_offset] is the offset of the zone, in minutes, at
    those midnights: the days compared are days on which no clock
    changes. *)
Variable utc_offset : Z.

(** [m.startOf('day')] and [m.endOf('day')], as [valueOf()]: the first and
    the last millisecond of the local day of [x]. *)
Definition startOf_day (x : Z) : Z :=
  (x + utc_offset * Moment.ms_per_minute) / ms_per_day * ms_per_day
  - utc_offset * Moment.ms_per_minute.

Definition endOf_day (x : Z) : Z := startOf_day x + ms_per_day - 1.

(** [a.isSame(b, 'day')]: [b] lies between the start and the end of the
    day of [a]; false as soon as one side is invalid. *)
Definition isSame_day (a b : Moment.t) : bool :=
  match a, b with
  | Some x, Some y => (startOf_day x <=? y) && (y <=? endOf_day x)
  | _, _ => false
  end.

(** One step of the insertion that [sort_by_start] makes: [a] goes before
    the first element that does not start earlier. *)
Fixpoint insert_by_start (a : AppointmentType) (l : list AppointmentType)
  : list AppointmentType :=
  match l with
  | [] => [a]
  | b :: rest =>
      if appointment_date a - appointment_date b <=? 0 then a :: b :: rest
      else b :: insert_by_start a rest
  end.

(** [.sort((a, b) => start(a) - start(b))].  [Array.prototype.sort] is
    stable and the comparator is a total order on the start instants, so
    its result is the one arrangement that is sorted and keeps equal starts
    in their order; insertion from the right computes it. *)
Definition sort_by_start (l : list AppointmentType) : list AppointmentType :=
  fold_right insert_by_start [] l.

(** Lines 125-135. *)
Definition filteredAppointments (appointments : list AppointmentType)
    (currentDate : option Z) (selectedProfessionalId : option Z)
  : list AppointmentType :=
  match currentDate with
  | None => []
  | Some d =>
      sort_by_start
        (List.filter
           (fun app =>
              let isSameDay := isSame_day (Some (appointment_date app)) (Some d) in
              let professionalMatch :=
                match selectedProfessionalId with
                | None => true
                | Some p => professional_id app =? p
                end in
              isSameDay && professionalMatch)
           appointments)
  end.

End Calendar.

Definition digit (n : Z) : ascii := ascii_of_nat (48 + Z.to_nat n).

Definition two_digits (n : Z) : string :=
  String (digit (n / 10)) (String (digit (n mod 10)) EmptyString).

Definition HHmm (minute : Z) : string :=
  String.append (two_digits (minute / 60))
    (String ":"%char (two_digits (minute mod 60))).

(** [moment(x).format('HH:mm')] *)
Definition format_HHmm (host : Host) (x : Z) : string :=
  HHmm (minute_of_day host x).

(** ** Grouping by start time (lines 137-144) *)

Section Reduce.

Context {A : Type}.
Variable key : A -> string.

(** [if (!acc[time]) acc[time] = []; acc[time].push(app)] on an object
    whose keys are kept in the order they were added: the element goes to
    the end of the array under its key, and a key that is not there yet is
    added last. *)
Fixpoint push_under (k : string) (a : A) (acc : list (string * list A))
  : list (string * list A) :=
  match acc with
  | [] => [(k, [a])]
  | (k', g) :: rest =>
      if String.eqb k' k then (k', g ++ [a]) :: rest
      else (k', g) :: push_under k a rest
  end.

(** [l.reduce((acc, x) => ..., {})]; the result as [Object.entries] lists
    it. *)
Definition group_entries (l : list A) : list (string * list A) :=
  fold_left (fun acc a => push_under (key a) a acc) l [].

End Reduce.

Definition groupedAppointments (host : Host) (filtered : list AppointmentType)
  : list (string * list AppointmentType) :=
  group_entries (fun app => format_HHmm host (appointment_date app)) filtered.

(** Orders used to state what the day view shows. *)
Definition starts_le (a b : AppointmentType) : Prop :=
  appointment_date a <= appointment_date b.

(** The number of the local day an instant falls in. *)
Definition local_day (utc_offset x : Z) : Z :=
  (x + utc_offset * Moment.ms_per_minute) / ms_per_day.

(** [acc[k]] *)
Fixpoint entry_of {A} (k : string) (acc : list (string * list A)) : option (list A) :=
  match acc with
  | [] => None
  | (k', g) :: rest => if String.eqb k' k then Some g else entry_of k rest
  end.

(** The elements of [l] whose key is [k], in their order. *)
Definition members {A} (key : A -> string) (k : string) (l : list A) : list A :=
  List.filter (fun a => String.eqb (key a) k) l.

(** A group is not empty and holds elements of its key only. *)
Definition group_ok {A} (key : A -> string) (p : string * list A) : Prop :=
  snd p <> [] /\ List.Forall (fun x => key x = fst p) (snd p).

(** Every element of the group [p] ranks below every element of [q]. *)
Definition group_before {A} (rank : A -> Z) (p q : string * list A) : Prop :=
  forall x y, In x (snd p) -> In y (snd q) -> rank x < rank y.

(** ** The professional filter (lines 116-120 and 299-308) *)

(** An entry of the dropdown: a professional, or the entry for all of them,
    whose id is [null]. *)
Record ProfessionalOption : Type := {
  opt_id : option Z;
  opt_name : string
}.

Definition allOption : ProfessionalOption :=
  {| opt_id := None; opt_name := "Todos os Profissionais" |}.

Definition option_of (p : ProfessionalType) : ProfessionalOption :=
  {| opt_id := Some (professional_id_of p); opt_name := professional_name p |}.

(** [[allOption, ...professionals]] *)
Definition professionalOptions (professionals : list ProfessionalType)
  : list ProfessionalOption :=
  allOption :: map option_of professionals.

(** [options.find(p => p.id === selectedProfessionalId) || options[0]];
    [None] is [undefined]. *)
Definition dropdown_value (options : list ProfessionalOption)
    (selectedProfessionalId : option Z) : option ProfessionalOption :=
  match find (fun p => strict_eq_id (opt_id p) selectedProfessionalId) options with
  | Some o => Some o
  | None => nth_error options 0
  end.

(** [onChange={(e) => setSelectedProfessionalId(e.value ? e.value.id : null)}] *)
Definition onProfessionalChange (value : option ProfessionalOption) : M unit :=
  modify (set_selectedProfessionalId
            (match value with
             | Some o => opt_id o
             | None => None
             end)).

(** ** Deleting (lines 230-245) *)

(** The page's state with the two state variables of the confirmation
    dialog and the calls made to the store's [deleteAppointment]. *)
Record DeletePage : Type := {
  d_page : World;
  d_isDeleteModalOpen : bool;
  d_appointmentToDelete : option AppointmentType;
  d_delete_calls : list (option Z)
}.

(** Lines 230-233. *)
Definition handleDeleteClick (appointment : AppointmentType) (s : DeletePage)
  : DeletePage :=
  {| d_page := d_page s;
     d_isDeleteModalOpen := true;
     d_appointmentToDelete := Some appointment;
     d_delete_calls := d_delete_calls s |}.

Section Delete.

(** The store's [deleteAppointment], called with [appointmentToDelete.id!]:
    it resolves ([true]) or rejects ([false]). *)
Variable store_delete : option Z -> World -> bool * World.

(** Lines 235-245.  [showError] is called with a title only; the message
    it leaves out is the empty string here. *)
Definition handleDeleteConfirm (s : DeletePage) : DeletePage :=
  match w_user (d_page s), d_appointmentToDelete s with
  | Some _, Some appointmentToDelete =>
      let (ok, w1) := store_delete (id appointmentToDelete) (d_page s) in
      let calls := d_delete_calls s ++ [id appointmentToDelete] in
      if ok then
        {| d_page := snd (toast (showSuccess "Agendamento removido!") w1);
           d_isDeleteModalOpen := false;
           d_appointmentToDelete := None;
           d_delete_calls := calls |}
      else
        {| d_page := snd (toast (showError "Falha ao remover agendamento." "") w1);
           d_isDeleteModalOpen := d_isDeleteModalOpen s;
           d_appointmentToDelete := d_appointmentToDelete s;
           d_delete_calls := calls |}
  | _, _ => s
  end.

End Delete.

(** * Properties *)

(** ** The conflict test *)

Lemma strict_eq_num_true (a : Z) (n : option Z) :
  strict_eq_num a n = true <-> n = Some a.
Proof.
  destruct n as [b|]; simpl.
  - rewrite Z.eqb_eq. split; [intros ->; reflexivity | intros [= ->]; reflexivity].
  - split; discriminate.
Qed.

Lemma strict_eq_id_true (a b : option Z) : strict_eq_id a b = true <-> a = b.
Proof.
  destruct a as [x|], b as [y|]; simpl; try (split; (discriminate || reflexivity)).
  rewrite Z.eqb_eq. split; [intros ->; reflexivity | intros [= ->]; reflexivity].
Qed.

(** The callback, one conjunct per test of the source. *)
Lemma conflicts_true_iff ed pid s e app :
  conflicts ed pid (Some s) (Some e) app = true <->
  excluded ed app = false /\ pid = Some (professional_id app) /\
  s < end_date app /\ appointment_date app < e.
Proof.
  unfold conflicts. destruct (excluded ed app).
  - split; [discriminate | intros [H _]; discriminate].
  - destruct (strict_eq_num (professional_id app) pid) eqn:Hp; simpl.
    + apply strict_eq_num_true in Hp.
      rewrite andb_true_iff, !Z.ltb_lt. tauto.
    + split; [discriminate |].
      intros (_ & Hpid & _). apply strict_eq_num_true in Hpid. congruence.
Qed.

Lemma conflicts_excluded ed pid ns ne app :
  excluded ed app = true -> conflicts ed pid ns ne app = false.
Proof. unfold conflicts. intros ->. reflexivity. Qed.

Lemma conflicts_other_professional ed pid ns ne app :
  pid <> Some (professional_id app) -> conflicts ed pid ns ne app = false.
Proof.
  intros Hne. unfold conflicts. destruct (excluded ed app); [reflexivity |].
  destruct (strict_eq_num (professional_id app) pid) eqn:Hp; [| reflexivity].
  apply strict_eq_num_true in Hp. contradiction.
Qed.

Lemma conflicts_no_overlap ed pid s e app :
  e <= appointment_date app \/ end_date app <= s ->
  conflicts ed pid (Some s) (Some e) app = false.
Proof.
  intros Hd. destruct (conflicts ed pid (Some s) (Some e) app) eqn:Hc; [| reflexivity].
  apply conflicts_true_iff in Hc. lia.
Qed.

(** [find] answers nothing exactly when the callback rejects every element. *)
Lemma conflictingAppointment_None ed pid ns ne apps :
  conflictingAppointment ed pid ns ne apps = None <->
  Forall (fun a => conflicts ed pid ns ne a = false) apps.
Proof.
  unfold conflictingAppointment. induction apps as [|a apps IH]; simpl.
  - split; [constructor | reflexivity].
  - destruct (conflicts ed pid ns ne a) eqn:Ha.
    + split; [discriminate | intros H; inversion H; congruence].
    + rewrite IH. split; [intros H; constructor; assumption | intros H; inversion H; assumption].
Qed.

Lemma has_conflict_false ed pid ns ne apps :
  has_conflict ed pid ns ne apps = false <->
  Forall (fun a => conflicts ed pid ns ne a = false) apps.
Proof.
  rewrite <- conflictingAppointment_None. unfold has_conflict.
  destruct (conflictingAppointment ed pid ns ne apps); split; congruence.
Qed.

(** C1. An existing appointment [E] that the edited appointment's id does
    not exclude conflicts with the candidate (professional [p], start [s],
    end [e]) exactly when [E] is of professional [p], [s < E.end] and
    [e > E.start].  On the spec's example (P has 10:00-10:30): P at
    10:15-10:45 conflicts, P at 10:30-11:00 and Q at 10:00-10:30 do not. *)
Theorem C1_conflict_iff_open_overlap :
  (forall ed p s e E,
      conflicts ed (Some p) (Some s) (Some e) E = true <->
      excluded ed E = false /\
      professional_id E = p /\ s < end_date E /\ e > appointment_date E) /\
  has_conflict None (Some 1) (Some (615 * 60000)) (Some (645 * 60000))
    [example_existing] = true /\
  has_conflict None (Some 1) (Some (630 * 60000)) (Some (660 * 60000))
    [example_existing] = false /\
  has_conflict None (Some 2) (Some (600 * 60000)) (Some (630 * 60000))
    [example_existing] = false.
Proof.
  split; [| repeat split; reflexivity].
  intros ed p s e E. rewrite conflicts_true_iff.
  split; intros (Hx & Hp & Hs & He); repeat split; try assumption; try lia; congruence.
Qed.

(** C3. Candidate [A] and existing appointments [B] of the same
    professional: when every [B] ends no later than [A] starts or starts no
    earlier than [A] ends, there is no conflict.  Sharing a boundary
    instant is allowed. *)
Theorem C3_touching_or_disjoint_no_conflict ed (A : AppointmentType) (apps : list AppointmentType) :
  Forall (fun B => professional_id B = professional_id A /\
                   (end_date A <= appointment_date B \/ end_date B <= appointment_date A))
         apps ->
  has_conflict ed (Some (professional_id A)) (Some (appointment_date A)) (Some (end_date A))
    apps = false.
Proof.
  intros H. apply has_conflict_false. revert H. apply List.Forall_impl.
  intros B [_ Hd]. apply conflicts_no_overlap, Hd.
Qed.

Lemma C3_touching_or_disjoint_no_conflict_witness :
  has_conflict None (Some 1) (Some (630 * 60000)) (Some (660 * 60000))
    [example_existing] = false.
Proof.
  apply (C3_touching_or_disjoint_no_conflict None
           {| id := None; client_id := 3; professional_id := 1; service_id := 5;
              price := of_Z 5000;
              appointment_date := 630 * 60000; end_date := 660 * 60000;
              attended := false;
              client_name := "Ana"; professional := "Bia"; service := "Corte" |}
           [example_existing]).
  constructor; [| constructor]. simpl. split; [reflexivity | right; lia].
Defined.

(** C4. Candidate [A] and existing appointments [B] of other
    professionals: no conflict, however the intervals lie. *)
Theorem C4_other_professional_no_conflict ed (A : AppointmentType) (apps : list AppointmentType) :
  Forall (fun B => professional_id B <> professional_id A) apps ->
  has_conflict ed (Some (professional_id A)) (Some (appointment_date A)) (Some (end_date A))
    apps = false.
Proof.
  intros H. apply has_conflict_false. revert H. apply List.Forall_impl.
  intros B Hne. apply conflicts_other_professional. congruence.
Qed.

Lemma C4_other_professional_no_conflict_witness :
  has_conflict None (Some 2) (Some (600 * 60000)) (Some (630 * 60000))
    [example_existing] = false.
Proof.
  apply (C4_other_professional_no_conflict None
           {| id := None; client_id := 3; professional_id := 2; service_id := 5;
              price := of_Z 5000;
              appointment_date := 600 * 60000; end_date := 630 * 60000;
              attended := false;
              client_name := "Ana"; professional := "Eva"; service := "Corte" |}
           [example_existing]).
  constructor; [| constructor]. simpl. lia.
Defined.

Lemma excluded_same_id ed app :
  id app = id ed -> excluded (Some ed) app = true.
Proof. intros H. simpl. apply strict_eq_id_true, H. Qed.

(** What the exclusion removes and nothing else: with an edited
    appointment the callback is the callback without one, cut down to the
    appointments of another id. *)
Lemma conflicts_editing ed pid ns ne app :
  conflicts (Some ed) pid ns ne app =
  negb (strict_eq_id (id app) (id ed)) && conflicts None pid ns ne app.
Proof. unfold conflicts. simpl. destruct (strict_eq_id (id app) (id ed)); reflexivity. Qed.

(** C5. Editing: the appointments that carry the id of the edited
    appointment are skipped whatever their times, so when every appointment
    that overlaps the candidate is the edited appointment's own record, no
    conflict is found. *)
Theorem C5_editing_skips_own_record ed pid ns ne (apps : list AppointmentType) :
  (forall app, id app = id ed -> conflicts (Some ed) pid ns ne app = false) /\
  (Forall (fun app => conflicts None pid ns ne app = true -> id app = id ed) apps ->
   conflictingAppointment (Some ed) pid ns ne apps = None /\
   has_conflict (Some ed) pid ns ne apps = false).
Proof.
  split.
  - intros app Hid. apply conflicts_excluded, excluded_same_id, Hid.
  - intros Hown.
    assert (Hall : Forall (fun a => conflicts (Some ed) pid ns ne a = false) apps).
    { revert Hown. apply List.Forall_impl. intros app Hovl.
      rewrite conflicts_editing.
      destruct (conflicts None pid ns ne app); [| apply andb_false_r].
      rewrite (proj2 (strict_eq_id_true _ _) (Hovl eq_refl)). reflexivity. }
    split; [apply conflictingAppointment_None | apply has_conflict_false]; exact Hall.
Qed.

(** The same appointment as [example_existing], moved by the user to
    10:15-10:45 while being edited. *)
Lemma C5_editing_skips_own_record_witness :
  Forall (fun app =>
            conflicts None (Some 1) (Some (615 * 60000)) (Some (645 * 60000)) app = true ->
            id app = id example_existing) [example_existing] /\
  conflictingAppointment (Some example_existing) (Some 1)
    (Some (615 * 60000)) (Some (645 * 60000)) [example_existing] = None /\
  has_conflict (Some example_existing) (Some 1)
    (Some (615 * 60000)) (Some (645 * 60000)) [example_existing] = false.
Proof.
  assert (H : Forall (fun app =>
            conflicts None (Some 1) (Some (615 * 60000)) (Some (645 * 60000)) app = true ->
            id app = id example_existing) [example_existing]).
  { constructor; [intros _; reflexivity | constructor]. }
  split; [exact H |].
  exact (proj2 (C5_editing_skips_own_record example_existing (Some 1)
                  (Some (615 * 60000)) (Some (645 * 60000)) [example_existing]) H).
Defined.

(** C7. The appointment [find] returns is the first one, in the order of
    the array, that conflicts: everything before it is rejected.  It
    returns nothing exactly when no appointment conflicts. *)
Theorem C7_first_conflict_in_array_order ed pid ns ne (apps : list AppointmentType) :
  (forall E,
      conflictingAppointment ed pid ns ne apps = Some E <->
      exists before after,
        apps = before ++ E :: after /\
        Forall (fun a => conflicts ed pid ns ne a = false) before /\
        conflicts ed pid ns ne E = true) /\
  (conflictingAppointment ed pid ns ne apps = None <->
   Forall (fun a => conflicts ed pid ns ne a = false) apps).
Proof.
  split; [| apply conflictingAppointment_None].
  unfold conflictingAppointment.
  induction apps as [|a apps IH]; intros E; simpl.
  - split; [discriminate |]. intros (before & after & Heq & _).
    destruct before; discriminate.
  - destruct (conflicts ed pid ns ne a) eqn:Ha.
    + split.
      * intros [= <-]. exists [], apps. repeat split; [constructor | assumption].
      * intros (before & after & Heq & Hbefore & HE).
        destruct before as [|b before]; simpl in Heq; injection Heq as -> ->.
        -- reflexivity.
        -- inversion Hbefore; congruence.
    + rewrite IH. split.
      * intros (before & after & -> & Hbefore & HE).
        exists (a :: before), after. repeat split; [constructor |]; assumption.
      * intros (before & after & Heq & Hbefore & HE).
        destruct before as [|b before]; simpl in Heq; injection Heq as -> ->.
        -- congruence.
        -- exists before, after. inversion Hbefore; subst. repeat split; assumption.
Qed.

(** C9. A candidate whose start and end coincide is not rejected by the
    test: strictly inside an appointment of the same professional it
    conflicts; at the boundary of the appointment or outside it does not. *)
Theorem C9_degenerate_candidate ed p t (E : AppointmentType) :
  (excluded ed E = false -> professional_id E = p ->
   appointment_date E < t < end_date E ->
   conflicts ed (Some p) (Some t) (Some t) E = true /\
   has_conflict ed (Some p) (Some t) (Some t) [E] = true) /\
  (t <= appointment_date E \/ end_date E <= t ->
   conflicts ed (Some p) (Some t) (Some t) E = false /\
   has_conflict ed (Some p) (Some t) (Some t) [E] = false).
Proof.
  split.
  - intros Hx Hp Ht.
    assert (Hc : conflicts ed (Some p) (Some t) (Some t) E = true).
    { apply conflicts_true_iff. repeat split; [assumption | congruence | lia | lia]. }
    split; [exact Hc |]. unfold has_conflict, conflictingAppointment. simpl.
    rewrite Hc. reflexivity.
  - intros Ht.
    assert (Hc : conflicts ed (Some p) (Some t) (Some t) E = false).
    { apply conflicts_no_overlap. lia. }
    split; [exact Hc |]. unfold has_conflict, conflictingAppointment. simpl.
    rewrite Hc. reflexivity.
Qed.

Lemma C9_degenerate_candidate_witness :
  (conflicts None (Some 1) (Some (615 * 60000)) (Some (615 * 60000)) example_existing = true /\
   has_conflict None (Some 1) (Some (615 * 60000)) (Some (615 * 60000))
     [example_existing] = true) /\
  (conflicts None (Some 1) (Some (630 * 60000)) (Some (630 * 60000)) example_existing = false /\
   has_conflict None (Some 1) (Some (630 * 60000)) (Some (630 * 60000))
     [example_existing] = false).
Proof.
  split.
  - apply (proj1 (C9_degenerate_candidate None 1 (615 * 60000) example_existing));
      [reflexivity | reflexivity | simpl; lia].
  - apply (proj2 (C9_degenerate_candidate None 1 (630 * 60000) example_existing)).
    right. simpl. lia.
Defined.

(** ** Moment objects: allocation and update *)

Lemma read_moment_new ms v w :
  read_moment (length ms) (set_moments (ms ++ [v]) w) = v.
Proof.
  unfold read_moment. simpl.
  rewrite (list_lookup_middle ms [] v (length ms) eq_refl). reflexivity.
Qed.

Lemma read_moment_old r ms extra w :
  (r < length ms)%nat ->
  read_moment r (set_moments (ms ++ extra) w) = read_moment r (set_moments ms w).
Proof.
  intros Hr. unfold read_moment. simpl. rewrite lookup_app_l by exact Hr. reflexivity.
Qed.

Lemma insert_last (ms : list Moment.t) v v' :
  <[length ms := v']> (ms ++ [v]) = ms ++ [v'].
Proof.
  rewrite insert_app_r_alt by apply Nat.le_refl.
  rewrite Nat.sub_diag. reflexivity.
Qed.

Lemma set_moments_id w : set_moments (w_moments w) w = w.
Proof. destruct w; reflexivity. Qed.

(** ** End-time derivation *)

Lemma time_clip_in_range x :
  Z.abs x <= Moment.max_time -> Moment.time_clip x = Some x.
Proof.
  intros H. unfold Moment.time_clip. destruct (Z.leb_spec (Z.abs x) Moment.max_time); [reflexivity | lia].
Qed.

Lemma time_clip_Some x y :
  Moment.time_clip x = Some y -> y = x /\ Z.abs x <= Moment.max_time.
Proof.
  unfold Moment.time_clip. destruct (Z.leb_spec (Z.abs x) Moment.max_time); [| discriminate].
  intros [= <-]. split; [reflexivity | assumption].
Qed.

(** The minute an instant shows when local time is [o] ahead of UTC and
    the instant lies [n] whole minutes after one whose local time is the
    start of the minute [m]. *)
Lemma format_after h x m n :
  offset_at h (x + n * Moment.ms_per_minute) = m * Moment.ms_per_minute - x ->
  format h (Some (x + n * Moment.ms_per_minute)) = LocalMinute (m + n).
Proof.
  intros Ho. unfold format, LocalTime. rewrite Ho. f_equal.
  replace (x + n * Moment.ms_per_minute + (m * Moment.ms_per_minute - x))
    with ((m + n) * Moment.ms_per_minute) by ring.
  apply Z.div_mul. discriminate.
Qed.

(** The derived text, for a start that is read as the instant [x], an end
    within the range of [Date], and a zone that at the end has the offset
    the start was read with. *)
Lemma derive_end_time_minute h m svc x :
  moment h (LocalMinute m) = Some x ->
  Z.abs (x + duration svc * Moment.ms_per_minute) <= Moment.max_time ->
  offset_at h (x + duration svc * Moment.ms_per_minute) = m * Moment.ms_per_minute - x ->
  derive_end_time h (LocalMinute m) svc = LocalMinute (m + duration svc).
Proof.
  intros Hread Hrange Ho. unfold derive_end_time. rewrite Hread.
  cbn [Moment.add_minutes]. rewrite time_clip_in_range by exact Hrange.
  apply format_after, Ho.
Qed.

(** The object-level computation of line 109 returns [derive_end_time] and
    leaves one new moment object behind; the objects that existed keep
    their dates. *)
Lemma newEndDate_of_run h start svc w :
  newEndDate_of h start svc w =
  (derive_end_time h start svc,
   set_moments (w_moments w ++ [Moment.add_minutes (moment h start) (duration svc)]) w).
Proof.
  unfold newEndDate_of, bind, new_moment, obj_add, obj_format, gets.
  cbv beta iota. rewrite read_moment_new.
  change (w_moments (set_moments ?ms w)) with ms.
  rewrite insert_last. unfold derive_end_time.
  change (set_moments ?a (set_moments ?b w)) with (set_moments a w).
  rewrite read_moment_new. reflexivity.
Qed.

(** One run of the effect of lines 103-114 on a form whose service is
    found and whose start is a wall-clock minute. *)
Lemma end_date_effect_run h w svc m :
  truthy_num (f_service_id (w_form w)) = true ->
  find (fun s => strict_eq_num (service_id_of s) (Number (f_service_id (w_form w))))
       (w_services w) = Some svc ->
  f_appointment_date (w_form w) = LocalMinute m ->
  let w' := snd (end_date_effect h w) in
  w_form w' =
    {| f_client_id := f_client_id (w_form w);
       f_professional_id := f_professional_id (w_form w);
       f_service_id := f_service_id (w_form w);
       f_price := Some (form_price (service_price svc));
       f_appointment_date := LocalMinute m;
       f_end_date := derive_end_time h (LocalMinute m) svc;
       f_attended := f_attended (w_form w) |} /\
  w_services w' = w_services w.
Proof.
  intros Hsid Hfind Hstart w'. subst w'.
  unfold end_date_effect, bind, gets, modify. cbv beta iota.
  rewrite Hsid, Hfind, Hstart.
  assert (Hlen : (0 <? Z.of_nat (length (w_services w))) = true).
  { destruct (w_services w); [discriminate | reflexivity]. }
  rewrite Hlen. cbn [andb truthy_text].
  rewrite newEndDate_of_run. cbn.
  rewrite Hstart. split; reflexivity.
Qed.

(** C2, as the code has it.  A start text that is read as the instant [x],
    a service whose duration keeps [x + duration] within the range of
    [Date], and a zone in which local time at that end instant is as far
    ahead of UTC as the start text is ahead of [x] (no clock changed in
    between).  Then the derived end is the wall-clock minute [start +
    duration]; the moment it is written from lies [duration] minutes after
    the start's, and so does the instant the derived text is read as,
    when the zone reads it with that same offset; computing the text again
    (on moment objects, in any later state of the page) gives the same
    text; and the effect that stores it in the form writes the minute
    [start + duration] and, run again, leaves the form as it is. *)
Theorem C2_derive_end_time h (start : Z) (svc : ServiceType) (x : Z) :
  moment h (LocalMinute start) = Some x ->
  Z.abs (x + duration svc * Moment.ms_per_minute) <= Moment.max_time ->
  offset_at h (x + duration svc * Moment.ms_per_minute)
    = start * Moment.ms_per_minute - x ->
  derive_end_time h (LocalMinute start) svc = LocalMinute (start + duration svc) /\
  Moment.diff_minutes
    (Moment.add_minutes (moment h (LocalMinute start)) (duration svc))
    (moment h (LocalMinute start)) = Some (duration svc) /\
  (forall y,
      moment h (derive_end_time h (LocalMinute start) svc) = Some y ->
      (start + duration svc) * Moment.ms_per_minute - y
        = start * Moment.ms_per_minute - x ->
      Moment.diff_minutes (moment h (derive_end_time h (LocalMinute start) svc))
                          (moment h (LocalMinute start)) = Some (duration svc)) /\
  (forall w,
      let first := newEndDate_of h (LocalMinute start) svc w in
      let second := newEndDate_of h (LocalMinute start) svc (snd first) in
      fst first = derive_end_time h (LocalMinute start) svc /\
      fst second = fst first) /\
  (forall w,
      truthy_num (f_service_id (w_form w)) = true ->
      find (fun s => strict_eq_num (service_id_of s) (Number (f_service_id (w_form w))))
           (w_services w) = Some svc ->
      f_appointment_date (w_form w) = LocalMinute start ->
      let w1 := snd (end_date_effect h w) in
      let w2 := snd (end_date_effect h w1) in
      f_end_date (w_form w1) = LocalMinute (start + duration svc) /\
      w_form w2 = w_form w1).
Proof.
  intros Hread Hrange Ho.
  pose proof (derive_end_time_minute h start svc x Hread Hrange Ho) as Hd.
  split; [exact Hd |]. split; [| split; [| split]].
  - rewrite Hread. cbn [Moment.add_minutes].
    rewrite time_clip_in_range by exact Hrange.
    unfold Moment.diff_minutes. f_equal.
    replace (x + duration svc * Moment.ms_per_minute - x)
      with (duration svc * Moment.ms_per_minute) by ring.
    apply Z.quot_mul. discriminate.
  - intros y Hy Hsame. rewrite Hy, Hread. unfold Moment.diff_minutes. f_equal.
    replace (y - x) with (duration svc * Moment.ms_per_minute) by lia.
    apply Z.quot_mul. discriminate.
  - intros w first second. subst first second.
    rewrite !newEndDate_of_run. split; reflexivity.
  - intros w Hsid Hfind Hstart w1 w2.
    destruct (end_date_effect_run h w svc start Hsid Hfind Hstart) as [Hf1 Hs1].
    fold w1 in Hf1, Hs1.
    split; [rewrite Hf1; exact Hd |].
    destruct (end_date_effect_run h w1 svc start) as [Hf2 _].
    + rewrite Hf1. exact Hsid.
    + rewrite Hs1, Hf1. exact Hfind.
    + rewrite Hf1. reflexivity.
    + fold w2 in Hf2. rewrite Hf2, Hf1. reflexivity.
Qed.

(** The example page, three hours behind UTC, with service 5 (30 minutes)
    chosen and a start at 10:00: the effect writes 10:30, and a second run
    changes nothing. *)
Lemma C2_derive_end_time_witness :
  let h := fixed_zone (-180) in
  let svc := {| service_id_of := 5; service_name := "Corte";
                service_price := of_Z 5000; duration := 30 |} in
  let w := set_form {| f_client_id := None; f_professional_id := None;
                       f_service_id := Some 5; f_price := None;
                       f_appointment_date := LocalMinute 600;
                       f_end_date := EmptyText; f_attended := Some false |}
                    example_world in
  let w1 := snd (end_date_effect h w) in
  let w2 := snd (end_date_effect h w1) in
  moment h (LocalMinute 600) = Some 46800000 /\
  derive_end_time h (LocalMinute 600) svc = LocalMinute 630 /\
  f_end_date (w_form w1) = LocalMinute 630 /\ w_form w2 = w_form w1.
Proof.
  intros h svc w w1 w2.
  assert (Hread : moment h (LocalMinute 600) = Some 46800000) by reflexivity.
  assert (Hrange : Z.abs (46800000 + duration svc * Moment.ms_per_minute)
                   <= Moment.max_time) by (vm_compute; discriminate).
  assert (Ho : offset_at h (46800000 + duration svc * Moment.ms_per_minute)
               = 600 * Moment.ms_per_minute - 46800000) by reflexivity.
  destruct (C2_derive_end_time h 600 svc 46800000 Hread Hrange Ho)
    as (Hd & _ & _ & _ & Heff).
  split; [exact Hread |]. split; [exact Hd |].
  exact (Heff w eq_refl eq_refl eq_refl).
Defined.

(** Read for every start and every service, the spec's sentence fails in
    three ways.  A duration of 10^12 minutes leaves the range of
    [Date]: the derived text is moment's "Invalid date".  In New York on
    2024-03-10 a start at 01:30 and a duration of 60 minutes give 03:30,
    120 minutes later on the wall clock.  There on 2024-11-03 the same
    start and duration give 01:30 again, the text of the start itself. *)
Lemma C2_derive_end_time_counterexample :
  let svc d := {| service_id_of := 5; service_name := "Corte";
                  service_price := of_Z 5000; duration := d |} in
  (derive_end_time (fixed_zone (-180)) (LocalMinute 600) (svc 1000000000000)
     = InvalidDateText /\
   derive_end_time (fixed_zone (-180)) (LocalMinute 600) (svc 1000000000000)
     <> LocalMinute (600 + 1000000000000)) /\
  (derive_end_time new_york_spring_2024 (LocalMinute 28500570) (svc 60)
     = LocalMinute (28500570 + 120) /\
   derive_end_time new_york_spring_2024 (LocalMinute 28500570) (svc 60)
     <> LocalMinute (28500570 + 60)) /\
  (derive_end_time new_york_autumn_2024 (LocalMinute 28843290) (svc 60)
     = LocalMinute 28843290 /\
   derive_end_time new_york_autumn_2024 (LocalMinute 28843290) (svc 60)
     <> LocalMinute (28843290 + 60)).
Proof.
  intros svc. repeat split; try (vm_compute; reflexivity); vm_compute; discriminate.
Qed.

(** ** The search for a conflict, on the page's state *)

(** One call of the callback: it answers as [conflicts] does on the dates
    the two candidate objects hold, and only adds moment objects. *)
Lemma conflict_callback_run ed pid newStart newEnd app w :
  (newStart < length (w_moments w))%nat ->
  (newEnd < length (w_moments w))%nat ->
  exists extra,
    conflict_callback ed pid newStart newEnd app w =
    (conflicts ed pid (read_moment newStart w) (read_moment newEnd w) app,
     set_moments (w_moments w ++ extra) w).
Proof.
  intros Hs He. unfold conflict_callback, conflicts, excluded.
  set (skip := match ed with Some e => strict_eq_id (id app) (id e) | None => false end).
  destruct skip.
  { exists []. rewrite app_nil_r, set_moments_id. reflexivity. }
  destruct (negb (strict_eq_num (professional_id app) pid)).
  { exists []. rewrite app_nil_r, set_moments_id. reflexivity. }
  exists [Some (appointment_date app); Some (end_date app)].
  unfold bind, new_moment, obj_isBefore, obj_isAfter, gets, ret. cbv beta iota.
  change (w_moments (set_moments ?ms w)) with ms.
  change (set_moments ?a (set_moments ?b w)) with (set_moments a w).
  set (ms := w_moments w) in *.
  replace ((ms ++ [Some (appointment_date app)]) ++ [Some (end_date app)])
    with (ms ++ [Some (appointment_date app); Some (end_date app)])
    by (rewrite <- app_assoc; reflexivity).
  assert (Hrs : read_moment newStart
                  (set_moments (ms ++ [Some (appointment_date app); Some (end_date app)]) w)
                = read_moment newStart w).
  { rewrite read_moment_old by exact Hs. subst ms. rewrite set_moments_id. reflexivity. }
  assert (Hre : read_moment newEnd
                  (set_moments (ms ++ [Some (appointment_date app); Some (end_date app)]) w)
                = read_moment newEnd w).
  { rewrite read_moment_old by exact He. subst ms. rewrite set_moments_id. reflexivity. }
  assert (Hxs : read_moment (length ms)
                  (set_moments (ms ++ [Some (appointment_date app); Some (end_date app)]) w)
                = Some (appointment_date app)).
  { unfold read_moment. simpl.
    rewrite (list_lookup_middle ms [Some (end_date app)] _ (length ms) eq_refl).
    reflexivity. }
  assert (Hxe : read_moment (length (ms ++ [Some (appointment_date app)]))
                  (set_moments (ms ++ [Some (appointment_date app); Some (end_date app)]) w)
                = Some (end_date app)).
  { unfold read_moment. simpl.
    replace (ms ++ [Some (appointment_date app); Some (end_date app)])
      with ((ms ++ [Some (appointment_date app)]) ++ [Some (end_date app)])
      by (rewrite <- app_assoc; reflexivity).
    rewrite (list_lookup_middle (ms ++ [Some (appointment_date app)]) [] _ _ eq_refl).
    reflexivity. }
  rewrite Hrs, Hxe.
  destruct (Moment.isBefore (read_moment newStart w) (Some (end_date app))); simpl.
  - rewrite Hre, Hxs. reflexivity.
  - reflexivity.
Qed.

(** [appointments.find] with that callback is the pure [find]. *)
Lemma array_find_run ed pid newStart newEnd apps : forall w,
  (newStart < length (w_moments w))%nat ->
  (newEnd < length (w_moments w))%nat ->
  exists extra,
    array_find (conflict_callback ed pid newStart newEnd) apps w =
    (conflictingAppointment ed pid (read_moment newStart w) (read_moment newEnd w) apps,
     set_moments (w_moments w ++ extra) w).
Proof.
  induction apps as [|app apps IH]; intros w Hs He.
  - exists []. simpl. rewrite app_nil_r, set_moments_id. reflexivity.
  - destruct (conflict_callback_run ed pid newStart newEnd app w Hs He) as [x1 Hcb].
    cbn [array_find]. unfold bind at 1. rewrite Hcb.
    unfold conflictingAppointment. cbn [find].
    destruct (conflicts ed pid (read_moment newStart w) (read_moment newEnd w) app).
    + exists x1. reflexivity.
    + set (w1 := set_moments (w_moments w ++ x1) w).
      assert (Hs1 : (newStart < length (w_moments w1))%nat).
      { subst w1. simpl. rewrite length_app. lia. }
      assert (He1 : (newEnd < length (w_moments w1))%nat).
      { subst w1. simpl. rewrite length_app. lia. }
      destruct (IH w1 Hs1 He1) as [x2 Hrest]. rewrite Hrest.
      exists (x1 ++ x2). unfold conflictingAppointment. subst w1.
      rewrite !read_moment_old by assumption. rewrite set_moments_id.
      change (w_moments (set_moments ?ms w)) with ms.
      change (set_moments ?a (set_moments ?b w)) with (set_moments a w).
      rewrite app_assoc. reflexivity.
Qed.

(** Lines 184-193 as a whole. *)
Lemma find_conflicting_run h data w :
  exists extra,
    find_conflicting h data w =
    (conflictingAppointment (w_editingAppointment w) (Number (f_professional_id data))
       (moment h (f_appointment_date data)) (moment h (f_end_date data))
       (w_appointments w),
     set_moments (w_moments w ++ extra) w).
Proof.
  unfold find_conflicting, bind, new_moment, gets. cbv beta iota.
  change (w_moments (set_moments ?ms w)) with ms.
  change (set_moments ?a (set_moments ?b w)) with (set_moments a w).
  change (w_editingAppointment (set_moments ?ms w)) with (w_editingAppointment w).
  change (w_appointments (set_moments ?ms w)) with (w_appointments w).
  set (s := moment h (f_appointment_date data)).
  set (e := moment h (f_end_date data)).
  set (w2 := set_moments ((w_moments w ++ [s]) ++ [e]) w).
  assert (Hs : (length (w_moments w) < length (w_moments w2))%nat).
  { subst w2. simpl. rewrite !length_app. simpl. lia. }
  assert (He : (length (w_moments w ++ [s]) < length (w_moments w2))%nat).
  { subst w2. simpl. rewrite !length_app. simpl. lia. }
  destruct (array_find_run (w_editingAppointment w) (Number (f_professional_id data))
              _ _ (w_appointments w) w2 Hs He) as [x Hx].
  rewrite Hx. exists ([s; e] ++ x).
  assert (Hrs : read_moment (length (w_moments w)) w2 = s).
  { subst w2. rewrite read_moment_old by (rewrite length_app; simpl; lia).
    apply read_moment_new. }
  assert (Hre : read_moment (length (w_moments w ++ [s])) w2 = e).
  { subst w2. apply read_moment_new. }
  rewrite Hrs, Hre. subst w2.
  change (w_moments (set_moments ?ms w)) with ms.
  change (set_moments ?a (set_moments ?b w)) with (set_moments a w).
  f_equal. f_equal. rewrite <- !app_assoc. reflexivity.
Qed.

Lemma only_new_moments_keeps w w' :
  only_new_moments w w' ->
  w_appointments w' = w_appointments w /\
  w_services w' = w_services w /\
  w_clients w' = w_clients w /\
  w_professionals w' = w_professionals w /\
  w_form w' = w_form w /\
  w_store_calls w' = w_store_calls w /\
  (forall r, (r < length (w_moments w))%nat -> read_moment r w' = read_moment r w).
Proof.
  intros [extra ->]. repeat split.
  intros r Hr. rewrite read_moment_old by exact Hr. rewrite set_moments_id. reflexivity.
Qed.

(** C8. The search for a conflict and the derivation of the end time, run
    on the page's state: the answer is a function of the candidate, the
    edited appointment and the appointment array (resp. of the start text
    and the service) alone, so two runs on the same inputs agree whatever
    else the two states hold; and a run changes nothing that existed: the
    appointments, the services, the form and the store are untouched, and
    although [add] updates a moment object in place, the only objects
    that change are the ones created by the run itself. *)
Theorem C8_deterministic_and_read_only h (data : AppointmentFormData)
    (start : DateText) (svc : ServiceType) :
  (forall w,
      fst (find_conflicting h data w) =
      conflictingAppointment (w_editingAppointment w) (Number (f_professional_id data))
        (moment h (f_appointment_date data)) (moment h (f_end_date data))
        (w_appointments w) /\
      fst (newEndDate_of h start svc w) = derive_end_time h start svc) /\
  (forall w1 w2,
      w_editingAppointment w1 = w_editingAppointment w2 ->
      w_appointments w1 = w_appointments w2 ->
      fst (find_conflicting h data w1) = fst (find_conflicting h data w2) /\
      fst (newEndDate_of h start svc w1) = fst (newEndDate_of h start svc w2)) /\
  (forall w,
      only_new_moments w (snd (find_conflicting h data w)) /\
      only_new_moments w (snd (newEndDate_of h start svc w))) /\
  (forall w w',
      w' = snd (find_conflicting h data w) \/ w' = snd (newEndDate_of h start svc w) ->
      w_appointments w' = w_appointments w /\
      w_services w' = w_services w /\
      (forall r, (r < length (w_moments w))%nat -> read_moment r w' = read_moment r w)).
Proof.
  assert (Hres : forall w,
      fst (find_conflicting h data w) =
      conflictingAppointment (w_editingAppointment w) (Number (f_professional_id data))
        (moment h (f_appointment_date data)) (moment h (f_end_date data))
        (w_appointments w) /\
      fst (newEndDate_of h start svc w) = derive_end_time h start svc).
  { intros w. destruct (find_conflicting_run h data w) as [x Hx].
    rewrite Hx, newEndDate_of_run. split; reflexivity. }
  assert (Hnew : forall w,
      only_new_moments w (snd (find_conflicting h data w)) /\
      only_new_moments w (snd (newEndDate_of h start svc w))).
  { intros w. destruct (find_conflicting_run h data w) as [x Hx].
    rewrite Hx, newEndDate_of_run. split; eexists; reflexivity. }
  split; [exact Hres |]. split; [| split; [exact Hnew |]].
  - intros w1 w2 Hed Happs.
    destruct (Hres w1) as [-> ->], (Hres w2) as [-> ->].
    rewrite Hed, Happs. split; reflexivity.
  - intros w w' Hw'. destruct (Hnew w) as [H1 H2].
    assert (H : only_new_moments w w') by (destruct Hw' as [-> | ->]; assumption).
    apply only_new_moments_keeps in H. tauto.
Qed.

(** ** Submitting *)

(** A free slot: professional 1 from 11:00 to 11:30 on the example page.
    The store is called once, with the price back in minor units, the
    success toast is shown and the modal closes. *)
Example onSubmit_free_slot :
  let data := {| f_client_id := Some 3; f_professional_id := Some 1;
                 f_service_id := Some 5; f_price := Some (form_price (of_Z 5000));
                 f_appointment_date := LocalMinute 660; f_end_date := LocalMinute 690;
                 f_attended := None |} in
  let w' := snd (onSubmit (fixed_zone 0) (fun _ _ w => (true, w)) (fun _ w => (true, w))
                   data example_world) in
  w_store_calls w' =
    [call_addAppointment
       {| a_id := None; a_client_id := Some 3; a_professional_id := Some 1;
          a_service_id := Some 5; a_price := of_Z 5000;
          a_appointment_date := LocalMinute 660; a_end_date := LocalMinute 690;
          a_attended := false;
          a_client_name := "Ana"; a_professional := "Bia"; a_service := "Corte" |}
       "user-1"] /\
  w_toasts w' = [showSuccess "Agendamento criado!"] /\
  w_isModalOpen w' = false.
Proof. repeat split; vm_compute; reflexivity. Qed.

Lemma onSubmit_no_user h store_add store_update data w :
  w_user w = None -> onSubmit h store_add store_update data w = (tt, w).
Proof. intros Hu. unfold onSubmit, bind, gets. rewrite Hu. reflexivity. Qed.

Lemma onSubmit_conflict_run h store_add store_update data w u :
  w_user w = Some u ->
  has_conflict (w_editingAppointment w) (Number (f_professional_id data))
    (moment h (f_appointment_date data)) (moment h (f_end_date data))
    (w_appointments w) = true ->
  exists extra,
    onSubmit h store_add store_update data w =
    (tt, set_toasts
           (w_toasts w ++ [showError "Conflito de Horário"
                             "O profissional já tem um agendamento neste horário."])
           (set_moments (w_moments w ++ extra) w)).
Proof.
  intros Hu Hc. unfold onSubmit, bind at 1, gets at 1. rewrite Hu.
  unfold bind at 1, gets at 1. unfold bind at 1.
  destruct (find_conflicting_run h data w) as [extra Hrun]. rewrite Hrun.
  unfold has_conflict in Hc.
  destruct (conflictingAppointment _ _ _ _ _); [| discriminate].
  exists extra. reflexivity.
Qed.

(** C6. Submitting a candidate for which a conflict is found: the handler
    returns without calling [addAppointment] or [updateAppointment] (the
    result does not depend on them and the log of store calls is as it
    was), the appointments, the form, the edited appointment and the modal
    are as they were, and, a user being signed in, the one thing that
    happened is the toast with the conflict message. *)
Theorem C6_conflict_aborts_save h store_add store_update
    (data : AppointmentFormData) (w : World) :
  has_conflict (w_editingAppointment w) (Number (f_professional_id data))
    (moment h (f_appointment_date data)) (moment h (f_end_date data))
    (w_appointments w) = true ->
  let w' := snd (onSubmit h store_add store_update data w) in
  w_store_calls w' = w_store_calls w /\
  w_appointments w' = w_appointments w /\
  w_form w' = w_form w /\
  w_editingAppointment w' = w_editingAppointment w /\
  w_isModalOpen w' = w_isModalOpen w /\
  (forall u, w_user w = Some u ->
     w_toasts w' =
     w_toasts w ++ [showError "Conflito de Horário"
                      "O profissional já tem um agendamento neste horário."] /\
     exists extra,
       onSubmit h store_add store_update data w =
       (tt, set_toasts (w_toasts w') (set_moments (w_moments w ++ extra) w))).
Proof.
  intros Hc w'. subst w'. destruct (w_user w) as [u|] eqn:Hu.
  - destruct (onSubmit_conflict_run h store_add store_update data w u Hu Hc)
      as [extra Hrun].
    rewrite Hrun. simpl. do 5 (split; [reflexivity |]).
    intros _ _. split; [reflexivity |]. exists extra. reflexivity.
  - rewrite onSubmit_no_user by exact Hu. simpl. do 5 (split; [reflexivity |]).
    intros u [=].
Qed.

Lemma C6_conflict_aborts_save_witness :
  has_conflict (w_editingAppointment example_world) (Number (f_professional_id example_form))
    (moment (fixed_zone 0) (f_appointment_date example_form)) (moment (fixed_zone 0) (f_end_date example_form))
    (w_appointments example_world) = true /\
  let w' := snd (onSubmit (fixed_zone 0) (fun _ _ w => (true, w)) (fun _ w => (true, w))
                   example_form example_world) in
  w_store_calls w' = [] /\
  w_appointments w' = [example_existing] /\
  w_toasts w' = [showError "Conflito de Horário"
                   "O profissional já tem um agendamento neste horário."].
Proof.
  assert (Hc : has_conflict (w_editingAppointment example_world)
                 (Number (f_professional_id example_form))
                 (moment (fixed_zone 0) (f_appointment_date example_form))
                 (moment (fixed_zone 0) (f_end_date example_form))
                 (w_appointments example_world) = true) by reflexivity.
  split; [exact Hc |].
  pose proof (C6_conflict_aborts_save (fixed_zone 0) (fun _ _ w => (true, w)) (fun _ w => (true, w))
                example_form example_world Hc) as H.
  cbv zeta in H. destruct H as (Hcalls & Happs & _ & _ & _ & Htoast).
  cbv zeta. split; [exact Hcalls |]. split; [exact Happs |].
  exact (proj1 (Htoast "user-1"%string eq_refl)).
Defined.

(** ** Binary64 arithmetic on integers

    What [SpecFloat]'s rounding does to a positive mantissa of at least 53
    digits, in the normal range: the result is within half a unit in the
    last place of the exact value. *)

(** [digits2_pos] counts the binary digits. *)
Lemma digits2_pos_size p : digits2_pos p = Pos.size p.
Proof. induction p; simpl; congruence. Qed.

Lemma digits2_bounds p :
  2 ^ (Z.pos (digits2_pos p) - 1) <= Z.pos p < 2 ^ Z.pos (digits2_pos p).
Proof.
  rewrite digits2_pos_size. split.
  - pose proof (Pos.size_le p) as H.
    assert (H2 : 2 ^ Z.pos (Pos.size p) <= 2 * Z.pos p).
    { rewrite <- Pos2Z.inj_pow. change (2 * Z.pos p) with (Z.pos p~0).
      apply Pos2Z.pos_le_pos, H. }
    assert (H3 : 2 ^ Z.pos (Pos.size p) = 2 * 2 ^ (Z.pos (Pos.size p) - 1)).
    { rewrite <- Z.pow_succ_r by lia. f_equal. lia. }
    lia.
  - pose proof (Pos.size_gt p) as H. rewrite <- Pos2Z.inj_pow.
    apply Pos2Z.pos_lt_pos, H.
Qed.

Lemma digits2_unique p d :
  2 ^ (d - 1) <= Z.pos p < 2 ^ d -> Z.pos (digits2_pos p) = d.
Proof.
  intros [Hlo Hhi]. pose proof (digits2_bounds p) as [Hlo' Hhi'].
  set (d' := Z.pos (digits2_pos p)) in *.
  assert (0 < d).
  { destruct (Z.lt_trichotomy d 0) as [Hn | [-> | Hp]]; [| simpl in Hhi; lia | exact Hp].
    rewrite Z.pow_neg_r in Hhi by exact Hn. lia. }
  destruct (Z.lt_trichotomy d' d) as [Hlt | [Heq | Hgt]]; [| exact Heq |].
  - assert (2 ^ d' <= 2 ^ (d - 1)) by (apply Z.pow_le_mono_r; lia). lia.
  - assert (2 ^ d <= 2 ^ (d' - 1)) by (apply Z.pow_le_mono_r; lia). lia.
Qed.

(** [SpecFloat]'s iteration is iteration over [nat]. *)
Lemma iter_pos_nat {A} (f : A -> A) p : forall x,
  SpecFloat.iter_pos f p x = Nat.iter (Pos.to_nat p) f x.
Proof.
  induction p as [p IH | p IH |]; intros x; cbn [SpecFloat.iter_pos].
  - rewrite !IH. rewrite Pos2Nat.inj_xI.
    replace (S (2 * Pos.to_nat p)) with (Pos.to_nat p + (Pos.to_nat p + 1))%nat by lia.
    rewrite !Nat.iter_add. simpl. reflexivity.
  - rewrite !IH. rewrite Pos2Nat.inj_xO.
    replace (2 * Pos.to_nat p)%nat with (Pos.to_nat p + Pos.to_nat p)%nat by lia.
    rewrite Nat.iter_add. reflexivity.
  - reflexivity.
Qed.

(** Shifting the mantissa right by one bit halves the unit and keeps the
    location right. *)
Lemma shr_1_rel D N mrs :
  0 < D -> 0 <= shr_m mrs -> rec_rel D N mrs ->
  rec_rel (2 * D) N (shr_1 mrs) /\ shr_m (shr_1 mrs) = shr_m mrs / 2.
Proof.
  intros HD Hm. destruct mrs as [m r s]. unfold rec_rel. simpl in Hm |- *.
  destruct m as [|p|p]; [| | lia].
  - destruct r, s; simpl; intros H; split; try reflexivity; lia.
  - destruct p as [p|p|].
    + assert (Hdiv : Z.pos p~1 / 2 = Z.pos p).
      { rewrite Pos2Z.inj_xI. symmetry. apply (Z.div_unique _ _ _ 1); lia. }
      rewrite Hdiv. rewrite Pos2Z.inj_xI.
      destruct r, s; simpl; intros H; (split; [| reflexivity]); nia.
    + assert (Hdiv : Z.pos p~0 / 2 = Z.pos p).
      { rewrite Pos2Z.inj_xO. symmetry. apply (Z.div_unique _ _ _ 0); lia. }
      rewrite Hdiv. rewrite Pos2Z.inj_xO.
      destruct r, s; simpl; intros H; (split; [| reflexivity]); nia.
    + destruct r, s; simpl; intros H; (split; [| reflexivity]); nia.
Qed.

Lemma shr_iter_rel N k : forall D mrs,
  0 < D -> 0 <= shr_m mrs -> rec_rel D N mrs ->
  rec_rel (2 ^ Z.of_nat k * D) N (Nat.iter k shr_1 mrs) /\
  shr_m (Nat.iter k shr_1 mrs) = shr_m mrs / 2 ^ Z.of_nat k.
Proof.
  induction k as [|k IH]; intros D mrs HD Hm H.
  - cbn [Nat.iter nat_rect]. change (2 ^ Z.of_nat 0) with 1.
    rewrite Z.div_1_r, Z.mul_1_l. split; [exact H | reflexivity].
  - rewrite Nat.iter_succ_r.
    destruct (shr_1_rel D N mrs HD Hm H) as [H1 Hm1].
    assert (Hm1' : 0 <= shr_m (shr_1 mrs)) by (rewrite Hm1; apply Z.div_pos; lia).
    destruct (IH (2 * D) (shr_1 mrs) ltac:(lia) Hm1' H1) as [H2 Hm2].
    rewrite Nat2Z.inj_succ, Z.pow_succ_r by lia.
    replace (2 * 2 ^ Z.of_nat k * D) with (2 ^ Z.of_nat k * (2 * D)) by ring.
    split; [exact H2 |].
    rewrite Hm2, Hm1. rewrite Z.div_div by lia. reflexivity.
Qed.

(** The exponent of a normal number. *)
Lemma fexp_normal x : -1074 <= x - 53 -> fexp prec emax x = x - 53.
Proof. intros H. unfold fexp, emin, prec, emax. lia. Qed.

Lemma shr_spec mrs e k :
  0 <= k -> shr mrs e k = (Nat.iter (Z.to_nat k) shr_1 mrs, e + k).
Proof.
  intros Hk. destruct k as [|p|p]; [| | lia].
  - simpl. rewrite Z.add_0_r. reflexivity.
  - unfold shr. rewrite iter_pos_nat. reflexivity.
Qed.

Lemma rec_rel_of_loc D N m l :
  rec_rel D N (shr_record_of_loc m l) <-> loc_rel D N m l.
Proof. unfold rec_rel. destruct l as [|[]]; simpl; tauto. Qed.

Lemma shr_m_of_loc m l : shr_m (shr_record_of_loc m l) = m.
Proof. destruct l as [|[]]; reflexivity. Qed.

(** First shift of [binary_round_aux] on a mantissa of at least 53 digits. *)
Lemma shr_fexp_rel p e l D N :
  0 < D -> loc_rel D N (Z.pos p) l ->
  53 <= Z.pos (digits2_pos p) ->
  -1074 <= Z.pos (digits2_pos p) + e - 53 ->
  let k := Z.pos (digits2_pos p) - 53 in
  exists mrs,
    shr_fexp prec emax (Z.pos p) e l = (mrs, e + k) /\
    2 ^ 52 <= shr_m mrs < 2 ^ 53 /\
    rec_rel (2 ^ k * D) N mrs.
Proof.
  intros HD Hrel Hd He k.
  unfold shr_fexp. cbn [Zdigits2]. rewrite fexp_normal by lia.
  replace (Z.pos (digits2_pos p) + e - 53 - e) with k by (subst k; lia).
  assert (Hk : 0 <= k) by (subst k; lia).
  rewrite shr_spec by exact Hk.
  eexists. split; [reflexivity |].
  destruct (shr_iter_rel N (Z.to_nat k) D (shr_record_of_loc (Z.pos p) l) HD)
    as [Hr Hm].
  { rewrite shr_m_of_loc. lia. }
  { apply rec_rel_of_loc, Hrel. }
  rewrite Z2Nat.id in Hr, Hm by exact Hk. rewrite shr_m_of_loc in Hm.
  split; [| exact Hr]. rewrite Hm.
  pose proof (digits2_bounds p) as [Hlo Hhi].
  assert (Hpk : 0 < 2 ^ k) by (apply Z.pow_pos_nonneg; lia).
  assert (H1 : 2 ^ (Z.pos (digits2_pos p) - 1) = 2 ^ 52 * 2 ^ k).
  { rewrite <- Z.pow_add_r by lia. f_equal. subst k. lia. }
  assert (H2 : 2 ^ Z.pos (digits2_pos p) = 2 ^ 53 * 2 ^ k).
  { rewrite <- Z.pow_add_r by lia. f_equal. subst k. lia. }
  split.
  - apply Z.div_le_lower_bound; lia.
  - apply Z.div_lt_upper_bound; lia.
Qed.

(** Rounding to nearest, ties to even, moves by at most half a unit. *)
Lemma round_nearest_even_rel D N m l :
  0 < D -> loc_rel D N m l ->
  let m' := round_nearest_even m (l) in
  m <= m' <= m + 1 /\
  2 * (m' * D) - 2 * N <= D /\ 2 * N - 2 * (m' * D) <= D.
Proof.
  intros HD. unfold round_nearest_even.
  destruct l as [|[]]; simpl; try destruct (Z.even m); intros H; nia.
Qed.

(** Second shift: a rounded mantissa in [[2^52, 2^53]] is renormalised. *)
Lemma shr_fexp_renorm m e :
  2 ^ 52 <= m <= 2 ^ 53 -> -1074 <= e ->
  exists m' e',
    shr_fexp prec emax m e loc_Exact = (Build_shr_record m' false false, e') /\
    2 ^ 52 <= m' < 2 ^ 53 /\
    ((m' = m /\ e' = e) \/ (m = 2 ^ 53 /\ m' = 2 ^ 52 /\ e' = e + 1)).
Proof.
  intros Hm He. destruct m as [|p|p]; try lia.
  destruct (Z.eq_dec (Z.pos p) (2 ^ 53)) as [Heq | Hne].
  - assert (Hp : p = 9007199254740992%positive) by (apply Pos2Z.inj; exact Heq).
    subst p. exists (2 ^ 52), (e + 1).
    unfold shr_fexp.
    change (Zdigits2 9007199254740992) with 54.
    rewrite fexp_normal by lia.
    replace (54 + e - 53 - e) with 1 by lia.
    split; [reflexivity |]. split; [lia |]. right. auto.
  - exists (Z.pos p), e.
    assert (Hd : Z.pos (digits2_pos p) = 53) by (apply digits2_unique; lia).
    unfold shr_fexp. cbn [Zdigits2]. rewrite Hd.
    rewrite fexp_normal by lia.
    replace (53 + e - 53 - e) with 0 by lia.
    split; [reflexivity |]. split; [lia |]. left. auto.
Qed.

(** [binary_round_aux] on a mantissa of [53 + k] digits at location [lx]
    of the exact value [N / D] (in units of [2^ex]): the result is a normal
    number [m * 2^(ex + j)], [j] being [k] or [k + 1], within half a unit
    in the last place of [N / D]. *)
Lemma binary_round_aux_spec sx p ex lx D N :
  0 < D -> loc_rel D N (Z.pos p) lx ->
  53 <= Z.pos (digits2_pos p) ->
  -1074 <= Z.pos (digits2_pos p) + ex - 53 ->
  Z.pos (digits2_pos p) + ex - 53 < 971 ->
  exists m j,
    binary_round_aux prec emax sx (Z.pos p) ex lx = S754_finite sx m (ex + j) /\
    2 ^ 52 <= Z.pos m < 2 ^ 53 /\
    (j = Z.pos (digits2_pos p) - 53 \/ j = Z.pos (digits2_pos p) - 53 + 1) /\
    2 * (Z.pos m * 2 ^ j * D) - 2 * N <= 2 ^ j * D /\
    2 * N - 2 * (Z.pos m * 2 ^ j * D) <= 2 ^ j * D.
Proof.
  intros HD Hrel Hd Hlo Hhi. set (k := Z.pos (digits2_pos p) - 53) in *.
  assert (Hk : 0 <= k) by (subst k; lia).
  destruct (shr_fexp_rel p ex lx D N HD Hrel Hd Hlo) as (mrs & Hshr & Hmrs & Hr).
  fold k in Hshr, Hr.
  assert (HD' : 0 < 2 ^ k * D) by (apply Z.mul_pos_pos; [apply Z.pow_pos_nonneg |]; lia).
  pose proof (round_nearest_even_rel (2 ^ k * D) N (shr_m mrs) (loc_of_shr_record mrs)
                HD' Hr) as Hrne.
  cbv zeta in Hrne.
  set (m1 := round_nearest_even (shr_m mrs) (loc_of_shr_record mrs)) in *.
  destruct Hrne as (Hm1 & Hup & Hdn).
  destruct (shr_fexp_renorm m1 (ex + k)) as (m2 & e2 & Hshr2 & Hm2 & Hcase);
    [lia | lia |].
  unfold binary_round_aux. rewrite Hshr. fold m1. rewrite Hshr2. cbn [shr_m].
  destruct m2 as [|q|q]; try lia.
  assert (He2 : e2 <= 971) by (destruct Hcase as [[_ ->] | (_ & _ & ->)]; lia).
  replace (emax - prec) with 971 by reflexivity.
  apply Z.leb_le in He2. rewrite He2.
  destruct Hcase as [[Hq ->] | (Hm1' & Hq & ->)].
  - exists q, k. split; [reflexivity |]. split; [exact Hm2 |].
    split; [left; reflexivity |]. rewrite Hq. lia.
  - exists q, (k + 1). split; [f_equal; lia |]. split; [exact Hm2 |].
    split; [right; reflexivity |].
    rewrite Z.pow_add_r by lia. change (2 ^ 1) with 2.
    rewrite Hq. rewrite Hm1' in Hup, Hdn.
    set (K := 2 ^ k) in *. nia.
Qed.

(** A mantissa of exactly 53 digits is kept. *)
Lemma binary_round_aux_exact s m e :
  2 ^ 52 <= Z.pos m < 2 ^ 53 -> -1074 <= e -> e <= 971 ->
  binary_round_aux prec emax s (Z.pos m) e loc_Exact = S754_finite s m e.
Proof.
  intros Hm Hlo Hhi.
  destruct (shr_fexp_renorm (Z.pos m) e) as (m' & e' & Hshr & _ & Hcase); [lia | lia |].
  destruct Hcase as [[-> ->] | (Habs & _)]; [| lia].
  unfold binary_round_aux. rewrite Hshr. cbn [shr_m loc_of_shr_record round_nearest_even].
  rewrite Hshr. cbn [shr_m].
  replace (emax - prec) with 971 by reflexivity.
  apply Z.leb_le in Hhi. rewrite Hhi. reflexivity.
Qed.


Lemma pos_iter_xO p k : Z.pos (Pos.iter xO p k) = Z.pos p * 2 ^ Z.pos k.
Proof.
  induction k as [|k IH] using Pos.peano_ind.
  - simpl. lia.
  - rewrite Pos.iter_succ. rewrite Pos2Z.inj_xO, IH.
    rewrite Pos2Z.inj_succ, Z.pow_succ_r by lia. ring.
Qed.

(** An integer below [2^53] is a number: its mantissa is the integer
    shifted to 53 digits. *)
Lemma of_Z_spec n :
  0 < n < 2 ^ 53 ->
  exists m a,
    of_Z n = S754_finite false m (- a) /\
    0 <= a <= 52 /\ Z.pos m = n * 2 ^ a /\ 2 ^ 52 <= Z.pos m < 2 ^ 53.
Proof.
  intros Hn. destruct n as [|p|p]; try lia.
  pose proof (digits2_bounds p) as [Hlo Hhi].
  set (d := Z.pos (digits2_pos p)) in *.
  assert (Hd : 1 <= d <= 53).
  { split; [subst d; lia |].
    destruct (Z.le_gt_cases d 53) as [H | H]; [exact H |].
    assert (2 ^ 53 <= 2 ^ (d - 1)) by (apply Z.pow_le_mono_r; lia). lia. }
  unfold of_Z, binary_normalize, binary_round. fold d.
  rewrite fexp_normal by lia. unfold shl_align.
  destruct (Z.eq_dec d 53) as [Hd53 | Hd53].
  - replace (d + 0 - 53 - 0) with 0 by lia.
    exists p, 0. rewrite Hd53 in Hlo, Hhi.
    rewrite binary_round_aux_exact by (simpl; lia).
    split; [reflexivity |]. split; [lia |]. split; [rewrite Z.mul_1_r; reflexivity |].
    simpl in Hlo. lia.
  - replace (d + 0 - 53 - 0) with (Z.neg (Z.to_pos (53 - d))) by lia.
    set (k := Z.to_pos (53 - d)).
    assert (Hk : Z.pos k = 53 - d) by (subst k; lia).
    assert (Hm : Z.pos (Pos.iter xO p k) = Z.pos p * 2 ^ (53 - d))
      by (rewrite pos_iter_xO, Hk; reflexivity).
    assert (Hb : 2 ^ 52 <= Z.pos (Pos.iter xO p k) < 2 ^ 53).
    { rewrite Hm.
      assert (H1 : 2 ^ 52 = 2 ^ (d - 1) * 2 ^ (53 - d))
        by (rewrite <- Z.pow_add_r by lia; f_equal; lia).
      assert (H2 : 2 ^ 53 = 2 ^ d * 2 ^ (53 - d))
        by (rewrite <- Z.pow_add_r by lia; f_equal; lia).
      assert (0 < 2 ^ (53 - d)) by (apply Z.pow_pos_nonneg; lia).
      rewrite H1, H2. nia. }
    exists (Pos.iter xO p k), (53 - d).
    rewrite binary_round_aux_exact by lia.
    split; [f_equal; lia |]. split; [lia |]. split; [exact Hm | exact Hb].
Qed.

(** The location the division computes from the remainder. *)
Lemma new_location_rel D q r :
  0 < D -> 0 <= r < D ->
  loc_rel D (q * D + r) q (new_location D r).
Proof.
  intros HD Hr. unfold new_location, new_location_even, new_location_odd.
  destruct (Z.even D) eqn:Hev; destruct (Z.eqb_spec r 0) as [-> | Hr0];
    unfold loc_rel; try nia.
  - destruct (Z.compare_spec (2 * r) D); nia.
  - rewrite <- Z.negb_odd in Hev. apply negb_false_iff, Z.odd_spec in Hev.
    destruct Hev as [k ->].
    destruct (Z.compare_spec (2 * r + 1) (2 * k + 1)); nia.
Qed.

(** The quotient and remainder [SFdiv] works with when dividing by
    [hundred = 7036874417766400 * 2^-46]. *)
Lemma SFdiv_core_hundred mn a :
  2 ^ 52 <= Z.pos mn < 2 ^ 53 -> 0 <= a <= 52 ->
  SFdiv_core_binary prec emax (Z.pos mn) (- a) 7036874417766400 (-46) =
  ((Z.pos mn * 2 ^ 53) / 7036874417766400, - a - 7,
   new_location 7036874417766400 ((Z.pos mn * 2 ^ 53) mod 7036874417766400)).
Proof.
  intros Hm Ha. unfold SFdiv_core_binary. cbn [Zdigits2].
  rewrite (digits2_unique mn 53) by lia.
  change (Z.pos (digits2_pos 7036874417766400)) with 53.
  rewrite fexp_normal by lia.
  replace (Z.min (53 + - a - (53 + -46) - 53) (- a - -46)) with (- a - 7) by lia.
  replace (- a - -46 - (- a - 7)) with 53 by lia.
  cbv zeta. rewrite Z.shiftl_mul_pow2 by lia.
  unfold Z.div, Z.modulo.
  destruct (Z.div_eucl (Z.pos mn * 2 ^ 53) 7036874417766400) as [q r]. reflexivity.
Qed.

Lemma digits_53_or_54 q :
  2 ^ 52 <= Z.pos q < 2 ^ 54 ->
  Z.pos (digits2_pos q) = 53 \/ Z.pos (digits2_pos q) = 54.
Proof.
  intros H. destruct (Z.lt_ge_cases (Z.pos q) (2 ^ 53)).
  - left. apply digits2_unique. lia.
  - right. apply digits2_unique. lia.
Qed.

(** [x / 100] for a positive number [x = mn * 2^-a]. *)
Lemma div_hundred_spec mn a :
  2 ^ 52 <= Z.pos mn < 2 ^ 53 -> 0 <= a <= 52 ->
  exists mx j,
    SF64div (S754_finite false mn (- a)) hundred = S754_finite false mx (- a - 7 + j) /\
    2 ^ 52 <= Z.pos mx < 2 ^ 53 /\ 0 <= j <= 2 /\
    2 * (Z.pos mx * 2 ^ j * 7036874417766400) - 2 * (Z.pos mn * 2 ^ 53)
      <= 2 ^ j * 7036874417766400 /\
    2 * (Z.pos mn * 2 ^ 53) - 2 * (Z.pos mx * 2 ^ j * 7036874417766400)
      <= 2 ^ j * 7036874417766400.
Proof.
  intros Hm Ha. unfold SF64div, SFdiv, hundred. rewrite SFdiv_core_hundred by assumption.
  set (N := Z.pos mn * 2 ^ 53). set (D := 7036874417766400).
  assert (HD : 0 < D) by reflexivity.
  pose proof (Z.div_mod N D ltac:(lia)) as Hdm.
  pose proof (Z.mod_pos_bound N D HD) as Hr.
  set (q := N / D) in *. set (r := N mod D) in *.
  assert (Hq : 2 ^ 52 <= q < 2 ^ 54).
  { subst N D. change (2 ^ 53) with 9007199254740992 in *.
    change (2 ^ 52) with 4503599627370496 in *.
    change (2 ^ 54) with 18014398509481984. lia. }
  destruct q as [|pq|pq] eqn:Hqe; try lia.
  pose proof (new_location_rel D (Z.pos pq) r HD Hr) as Hloc.
  replace (Z.pos pq * D + r) with N in Hloc by lia.
  destruct (digits_53_or_54 pq Hq) as [Hd | Hd].
  - destruct (binary_round_aux_spec (xorb false false) pq (- a - 7) (new_location D r) D N HD Hloc)
      as (m & j & Heq & Hmb & Hj & Hup & Hdn); try lia.
    exists m, j. split; [exact Heq |]. split; [exact Hmb |]. split; [lia |].
    split; assumption.
  - destruct (binary_round_aux_spec (xorb false false) pq (- a - 7) (new_location D r) D N HD Hloc)
      as (m & j & Heq & Hmb & Hj & Hup & Hdn); try lia.
    exists m, j. split; [exact Heq |]. split; [exact Hmb |]. split; [lia |].
    split; assumption.
Qed.

(** [x * 100] for a positive number [x = mx * 2^ex]. *)
Lemma mul_hundred_spec mx ex :
  2 ^ 52 <= Z.pos mx < 2 ^ 53 -> -100 <= ex <= 0 ->
  exists my j,
    SF64mul (S754_finite false mx ex) hundred = S754_finite false my (ex + -46 + j) /\
    2 ^ 52 <= Z.pos my < 2 ^ 53 /\ 52 <= j <= 54 /\
    2 * (Z.pos my * 2 ^ j) - 2 * (Z.pos mx * 7036874417766400) <= 2 ^ j /\
    2 * (Z.pos mx * 7036874417766400) - 2 * (Z.pos my * 2 ^ j) <= 2 ^ j.
Proof.
  intros Hm He. unfold SF64mul, SFmul, hundred.
  set (M := (mx * 7036874417766400)%positive).
  assert (HM : Z.pos M = Z.pos mx * 7036874417766400) by reflexivity.
  assert (Hb : 2 ^ 104 <= Z.pos M < 2 ^ 106).
  { rewrite HM. change (2 ^ 104) with (2 ^ 52 * 2 ^ 52).
    change (2 ^ 106) with (2 ^ 53 * 2 ^ 53).
    change (2 ^ 53) with 9007199254740992 in *.
    change (2 ^ 52) with 4503599627370496 in *. lia. }
  assert (Hd : Z.pos (digits2_pos M) = 105 \/ Z.pos (digits2_pos M) = 106).
  { destruct (Z.lt_ge_cases (Z.pos M) (2 ^ 105)).
    - left. apply digits2_unique. lia.
    - right. apply digits2_unique. lia. }
  assert (Hloc : loc_rel 1 (Z.pos M) (Z.pos M) loc_Exact) by (simpl; lia).
  destruct (binary_round_aux_spec (xorb false false) M (ex + -46) loc_Exact 1 (Z.pos M) ltac:(lia) Hloc)
    as (m & j & Heq & Hmb & Hj & Hup & Hdn); try lia.
  exists m, j. split; [exact Heq |]. split; [exact Hmb |]. split; [lia |].
  rewrite <- HM. lia.
Qed.

(** [Math.round] of a positive, non-integral number, from the integer
    inequalities that place it in [[n - 1/2, n + 1/2)]. *)
Lemma Math_round_near my t n :
  0 < n -> 1 <= t ->
  n * 2 ^ (t + 1) <= 2 * Z.pos my + 2 ^ t < (n + 1) * 2 ^ (t + 1) ->
  Math_round (S754_finite false my (- t)) = of_Z n.
Proof.
  intros Hn Ht Hb. unfold Math_round.
  destruct (Z.leb_spec 0 (- t)) as [H | _]; [lia |].
  cbn [cond_Zopp]. rewrite Z.opp_involutive.
  assert (Hpos : 0 < 2 ^ (t + 1)) by (apply Z.pow_pos_nonneg; lia).
  assert (Hk : (2 * Z.pos my + 2 ^ t) / 2 ^ (t + 1) = n).
  { symmetry. apply (Z.div_unique _ _ n (2 * Z.pos my + 2 ^ t - n * 2 ^ (t + 1))); lia. }
  rewrite Hk. destruct (Z.eqb_spec n 0); [lia | reflexivity].
Qed.

(** Dividing an integer price by 100 and rounding the product with 100
    gives the price back, up to [max_round_trip_price]. *)
Lemma price_round_trip n :
  0 <= n <= max_round_trip_price ->
  submitted_price (Some (form_price (of_Z n))) = of_Z n.
Proof.
  unfold max_round_trip_price. intros Hn.
  destruct (Z.eq_dec n 0) as [-> | Hn0]; [reflexivity |].
  destruct (Z.eq_dec n 3518437208883200) as [-> | Hn1]; [vm_compute; reflexivity |].
  destruct (Z.eq_dec n 3518437208883201) as [-> | Hn2]; [vm_compute; reflexivity |].
  destruct (of_Z_spec n) as (mn & a & Hof & Ha & Hmn & Hmnb).
  { change (2 ^ 53) with 9007199254740992. lia. }
  assert (Ha1 : 1 <= a).
  { destruct (Z.eq_dec a 0) as [-> | ?]; [change (2 ^ 0) with 1 in Hmn;
      change (2 ^ 52) with 4503599627370496 in *; lia |]. lia. }
  unfold submitted_price, form_price, Number_f. rewrite Hof at 1.
  destruct (div_hundred_spec mn a Hmnb Ha) as (mx & j & Hdiv & Hmxb & Hj & Hd1 & Hd2).
  rewrite Hdiv.
  destruct (mul_hundred_spec mx (- a - 7 + j) Hmxb ltac:(lia))
    as (my & j2 & Hmul & Hmyb & Hj2 & Hm1 & Hm2).
  rewrite Hmul.
  change (2 ^ 53) with 9007199254740992 in *.
  change (2 ^ 52) with 4503599627370496 in *.
  assert (Hjc : j = 0 \/ j = 1 \/ j = 2) by lia.
  assert (Hj2c : j2 = 52 \/ j2 = 53 \/ j2 = 54) by lia.
  destruct Hjc as [-> | [-> | ->]]; destruct Hj2c as [-> | [-> | ->]];
    change (2 ^ 0) with 1 in *; change (2 ^ 1) with 2 in *; change (2 ^ 2) with 4 in *;
    change (2 ^ 52) with 4503599627370496 in *;
    change (2 ^ 53) with 9007199254740992 in *;
    change (2 ^ 54) with 18014398509481984 in *;
    try (exfalso; lia).
  all: assert (HT1 : 2 ^ (a + 1) = 2 * 2 ^ a)
         by (rewrite Z.pow_add_r by lia; change (2 ^ 1) with 2; ring).
  - assert (HT : 2 <= 2 ^ a)
      by (change 2 with (2 ^ 1) at 1; apply Z.pow_le_mono_r; lia).
    replace (- a - 7 + 0 + -46 + 53) with (- a) by lia.
    apply Math_round_near; [lia | lia |].
    rewrite HT1. set (T := 2 ^ a) in *. nia.
  - destruct (Z.eq_dec a 1) as [-> | Hne].
    + exfalso. change (2 ^ 1) with 2 in *. lia.
    + assert (HT : 4 <= 2 ^ a)
        by (change 4 with (2 ^ 2); apply Z.pow_le_mono_r; lia).
      replace (- a - 7 + 1 + -46 + 52) with (- a) by lia.
      apply Math_round_near; [lia | lia |].
      rewrite HT1. set (T := 2 ^ a) in *. nia.
Qed.

(** ** The price through the edit form *)

Example Math_round_half_up :
  Math_round (SF64div (of_Z 5) (of_Z 2)) = of_Z 3 /\
  Math_round (SF64div (of_Z (-5)) (of_Z 2)) = of_Z (-2) /\
  Math_round (SF64div (of_Z 1) (of_Z 3)) = S754_zero false /\
  Math_round (SF64div (of_Z (-1)) (of_Z 2)) = S754_zero true.
Proof. repeat split; vm_compute; reflexivity. Qed.

(** 19.99 is not a binary64 value and 19.99 * 100 is 1998.9999999999998;
    [Math.round] repairs it. *)
Example price_1999 :
  SF64mul (form_price (of_Z 1999)) hundred = S754_finite false 8791694975696895 (-42) /\
  of_Z 1999 = S754_finite false 8791694975696896 (-42) /\
  submitted_price (Some (form_price (of_Z 1999))) = of_Z 1999.
Proof. repeat split; vm_compute; reflexivity. Qed.

Lemma handleOpenModal_edit_form h a slotDate w :
  let w1 := snd (handleOpenModal h (Some a) slotDate w) in
  f_price (w_form w1) = Some (form_price (price a)) /\
  w_editingAppointment w1 = Some a.
Proof. split; reflexivity. Qed.

(** The effect of lines 103-114 is run by React whenever the watched
    service or start date changes, which loading an appointment into the
    form does.  When it finds the service it writes the service's price
    over the price [handleOpenModal] loaded: here the appointment was
    stored at 4000 and its service costs 5000. *)
Example effect_replaces_loaded_price :
  let a := {| id := Some 7; client_id := 3; professional_id := 1; service_id := 5;
              price := of_Z 4000;
              appointment_date := 600 * 60000; end_date := 630 * 60000;
              attended := false;
              client_name := "Ana"; professional := "Bia"; service := "Corte" |} in
  let w1 := snd (handleOpenModal (fixed_zone 0) (Some a) None example_world) in
  let w2 := snd (end_date_effect (fixed_zone 0) w1) in
  submitted_price (f_price (w_form w1)) = of_Z 4000 /\
  f_price (w_form w2) = Some (form_price (of_Z 5000)) /\
  submitted_price (f_price (w_form w2)) = of_Z 5000.
Proof. repeat split; vm_compute; reflexivity. Qed.

(** C10, as the code has it.  An appointment whose stored price is an
    integer number of minor units between 0 and [max_round_trip_price]
    (100 * 2^45 + 1): [handleOpenModal] puts [price / 100] in the price
    field, and submitting the form with the field as [handleOpenModal]
    loaded it computes [Math.round(price * 100)], which is the stored price
    again; the appointment data built from that form carries that price. *)
Theorem C10_price_round_trip_bounded h (a : AppointmentType) (n : Z)
    (slotDate : option Z) (w : World)
    (client : ClientType) (prof : ProfessionalType) (svc : ServiceType) :
  0 <= n <= max_round_trip_price ->
  price a = of_Z n ->
  let w1 := snd (handleOpenModal h (Some a) slotDate w) in
  f_price (w_form w1) = Some (SF64div (of_Z n) hundred) /\
  submitted_price (f_price (w_form w1)) = of_Z n /\
  a_price (appointmentData_of (w_editingAppointment w1) (w_form w1) client prof svc)
    = price a.
Proof.
  intros Hn Hp w1.
  destruct (handleOpenModal_edit_form h a slotDate w) as [Hform _].
  fold w1 in Hform. unfold appointmentData_of. cbn [a_price].
  rewrite Hform, Hp. unfold form_price at 1.
  split; [reflexivity |]. split; apply price_round_trip, Hn.
Qed.

Lemma C10_price_round_trip_bounded_witness :
  0 <= 5000 <= max_round_trip_price /\
  price example_existing = of_Z 5000 /\
  let w1 := snd (handleOpenModal (fixed_zone 0) (Some example_existing) None example_world) in
  f_price (w_form w1) = Some (SF64div (of_Z 5000) hundred) /\
  submitted_price (f_price (w_form w1)) = of_Z 5000 /\
  a_price (appointmentData_of (w_editingAppointment w1) (w_form w1)
             {| client_id_of := 3; client_name_of := "Ana" |}
             {| professional_id_of := 1; professional_name := "Bia" |}
             {| service_id_of := 5; service_name := "Corte";
                service_price := of_Z 5000; duration := 30 |})
    = price example_existing.
Proof.
  assert (Hn : 0 <= 5000 <= max_round_trip_price) by (unfold max_round_trip_price; lia).
  split; [exact Hn |]. split; [reflexivity |].
  exact (C10_price_round_trip_bounded (fixed_zone 0) example_existing 5000 None example_world
           _ _ _ Hn eq_refl).
Defined.

(** The smallest integer price that the form changes: 100 * 2^45 + 2
    minor units comes back one unit higher. *)
Lemma C10_price_round_trip_counterexample :
  let stored := of_Z 3518437208883202 in
  submitted_price (Some (form_price stored)) = of_Z 3518437208883203 /\
  submitted_price (Some (form_price stored)) <> stored.
Proof. split; [vm_compute; reflexivity | vm_compute; discriminate]. Qed.

(** * The rest of the page *)

(** ** The day view *)

Lemma isSame_day_iff off x y :
  isSame_day off (Some x) (Some y) = true <-> local_day off x = local_day off y.
Proof.
  unfold isSame_day, endOf_day, startOf_day, local_day, ms_per_day, Moment.ms_per_minute.
  rewrite andb_true_iff, !Z.leb_le.
  set (o := off * 60000).
  pose proof (Z.div_mod (x + o) 86400000 ltac:(lia)) as Hx.
  pose proof (Z.mod_pos_bound (x + o) 86400000 ltac:(lia)) as Hxb.
  pose proof (Z.div_mod (y + o) 86400000 ltac:(lia)) as Hy.
  pose proof (Z.mod_pos_bound (y + o) 86400000 ltac:(lia)) as Hyb.
  set (qx := (x + o) / 86400000) in *. set (qy := (y + o) / 86400000) in *.
  lia.
Qed.

Lemma insert_by_start_perm a l : Permutation (insert_by_start a l) (a :: l).
Proof.
  induction l as [|b l IH]; simpl; [reflexivity |].
  destruct (appointment_date a - appointment_date b <=? 0); [reflexivity |].
  rewrite IH. apply perm_swap.
Qed.

Lemma sort_by_start_perm l : Permutation (sort_by_start l) l.
Proof.
  induction l as [|a l IH]; simpl; [reflexivity |].
  rewrite insert_by_start_perm. apply perm_skip, IH.
Qed.

Lemma insert_by_start_sorted a l :
  StronglySorted starts_le l -> StronglySorted starts_le (insert_by_start a l).
Proof.
  induction l as [|b l IH]; intros Hs; simpl.
  - constructor; constructor.
  - inversion Hs as [|? ? Hl Hb]; subst.
    destruct (Z.leb_spec (appointment_date a - appointment_date b) 0) as [Hle | Hgt].
    + constructor; [exact Hs |]. constructor; [unfold starts_le; lia |].
      revert Hb. apply List.Forall_impl. unfold starts_le. intros c Hc. lia.
    + constructor; [apply IH, Hl |].
      rewrite insert_by_start_perm.
      constructor; [unfold starts_le; lia | exact Hb].
Qed.

Lemma sort_by_start_sorted l : StronglySorted starts_le (sort_by_start l).
Proof.
  induction l as [|a l IH]; simpl; [constructor | apply insert_by_start_sorted, IH].
Qed.

(** The test of the filter, in terms of the local day. *)
Lemma day_view_keep off d sel app :
  isSame_day off (Some (appointment_date app)) (Some d)
  && match sel with None => true | Some p => professional_id app =? p end =
  (local_day off (appointment_date app) =? local_day off d)
  && match sel with None => true | Some p => professional_id app =? p end.
Proof.
  f_equal. destruct (isSame_day off (Some (appointment_date app)) (Some d)) eqn:Hs.
  - apply isSame_day_iff in Hs. symmetry. apply Z.eqb_eq, Hs.
  - symmetry. apply Z.eqb_neq. intros Heq. apply isSame_day_iff in Heq. congruence.
Qed.

Lemma filteredAppointments_perm off apps d sel :
  Permutation (filteredAppointments off apps (Some d) sel)
    (List.filter (fun app => (local_day off (appointment_date app) =? local_day off d)
                             && match sel with
                                | None => true
                                | Some p => professional_id app =? p
                                end) apps).
Proof.
  unfold filteredAppointments. rewrite sort_by_start_perm.
  erewrite List.filter_ext; [reflexivity |].
  intros app. cbv zeta. apply day_view_keep.
Qed.

Lemma filteredAppointments_In off apps d sel app :
  In app (filteredAppointments off apps (Some d) sel) <->
  In app apps /\ local_day off (appointment_date app) = local_day off d /\
  (forall p, sel = Some p -> professional_id app = p).
Proof.
  split.
  - intros Hin. apply (Permutation_in _ (filteredAppointments_perm off apps d sel)) in Hin.
    apply List.filter_In in Hin. destruct Hin as [Hin Hk].
    apply andb_true_iff in Hk. destruct Hk as [Hday Hp]. apply Z.eqb_eq in Hday.
    split; [exact Hin |]. split; [exact Hday |].
    intros p ->. apply Z.eqb_eq, Hp.
  - intros (Hin & Hday & Hp).
    apply (Permutation_in _ (Permutation_sym (filteredAppointments_perm off apps d sel))).
    apply List.filter_In. split; [exact Hin |].
    apply andb_true_iff. split; [apply Z.eqb_eq, Hday |].
    destruct sel as [p|]; [apply Z.eqb_eq, Hp; reflexivity | reflexivity].
Qed.



(** ** Grouping by start time *)

Section ReduceFacts.

Context {A : Type}.
Variable key : A -> string.

Lemma push_under_keys k a (acc : list (string * list A)) :
  map fst (push_under k a acc) =
  match entry_of k acc with
  | Some _ => map fst acc
  | None => map fst acc ++ [k]
  end.
Proof.
  induction acc as [|[k' g] acc IH]; [reflexivity |]. cbn [push_under entry_of].
  destruct (String.eqb k' k); [reflexivity |]. cbn [map fst]. rewrite IH.
  destruct (entry_of k acc); reflexivity.
Qed.

Lemma push_under_entry k a (acc : list (string * list A)) k0 :
  entry_of k0 (push_under k a acc) =
  if String.eqb k k0 then Some (default [] (entry_of k acc) ++ [a])
  else entry_of k0 acc.
Proof.
  induction acc as [|[k' g] acc IH]; cbn [push_under entry_of].
  - destruct (String.eqb k k0); reflexivity.
  - destruct (String.eqb_spec k' k) as [Heq | Hne]; cbn [entry_of].
    + rewrite Heq. destruct (String.eqb k k0); reflexivity.
    + rewrite IH. destruct (String.eqb_spec k k0) as [Heq0 | Hne0].
      * rewrite <- Heq0. apply String.eqb_neq in Hne. rewrite Hne. reflexivity.
      * reflexivity.
Qed.

Lemma entry_of_None k (acc : list (string * list A)) :
  entry_of k acc = None <-> ~ In k (map fst acc).
Proof.
  induction acc as [|[k' g] acc IH]; cbn [entry_of map fst In]; [tauto |].
  destruct (String.eqb_spec k' k) as [-> | Hne].
  - split; [discriminate | intros H; exfalso; apply H; left; reflexivity].
  - rewrite IH. tauto.
Qed.

Lemma entry_of_In k g (acc : list (string * list A)) :
  List.NoDup (map fst acc) -> (In (k, g) acc <-> entry_of k acc = Some g).
Proof.
  induction acc as [|[k' g'] acc IH]; cbn [entry_of map fst In]; intros Hnd.
  - split; [tauto | discriminate].
  - inversion Hnd as [|? ? Hnot Hnd']; subst.
    destruct (String.eqb_spec k' k) as [-> | Hne].
    + split.
      * intros [[= ->] | Hin]; [reflexivity |].
        exfalso. apply Hnot. apply (in_map fst) in Hin. exact Hin.
      * intros [= ->]. left. reflexivity.
    + rewrite <- (IH Hnd'). split; [intros [[= ? ?] | H]; [congruence | exact H] | tauto].
Qed.

(** What the reduction has built after the elements [l]: the keys are
    distinct and under each key sit, in their order, the elements of [l]
    with that key. *)
Lemma group_entries_fold (l : list A) : forall l0 acc,
  List.NoDup (map fst acc) ->
  (forall k, entry_of k acc =
             match members key k l0 with [] => None | g => Some g end) ->
  let acc' := fold_left (fun acc a => push_under (key a) a acc) l acc in
  List.NoDup (map fst acc') /\
  (forall k, entry_of k acc' =
             match members key k (l0 ++ l) with [] => None | g => Some g end).
Proof.
  induction l as [|a l IH]; intros l0 acc Hnd Hent; cbn [fold_left].
  - rewrite app_nil_r. split; assumption.
  - replace (l0 ++ a :: l) with ((l0 ++ [a]) ++ l) by (rewrite <- app_assoc; reflexivity).
    apply IH.
    + rewrite push_under_keys. destruct (entry_of (key a) acc) eqn:He; [exact Hnd |].
      apply entry_of_None in He. apply List.NoDup_app.
      * exact Hnd.
      * constructor; [intros [] | constructor].
      * intros x Hx [Hx' | []]. subst x. contradiction.
    + intros k. rewrite push_under_entry. unfold members. rewrite List.filter_app.
      cbn [List.filter]. destruct (String.eqb_spec (key a) k) as [<- | Hne].
      * rewrite Hent. fold (members key (key a) l0).
        destruct (members key (key a) l0) as [|x g]; reflexivity.
      * rewrite app_nil_r. apply Hent.
Qed.

Lemma group_entries_spec (l : list A) :
  List.NoDup (map fst (group_entries key l)) /\
  (forall k g, In (k, g) (group_entries key l) <-> g = members key k l /\ g <> []).
Proof.
  destruct (group_entries_fold l [] []) as [Hnd Hent];
    [constructor | intros k; reflexivity |].
  fold (group_entries key l) in Hnd, Hent. cbn [app] in Hent.
  split; [exact Hnd |]. intros k g. rewrite (entry_of_In _ _ _ Hnd), Hent.
  destruct (members key k l) as [|x m].
  - split; [discriminate | intros [-> H]; contradiction].
  - split; [intros [= <-]; split; [reflexivity | discriminate] | intros [-> _]; reflexivity].
Qed.

Lemma push_under_concat k a (acc : list (string * list A)) :
  Permutation (concat (map snd (push_under k a acc))) (concat (map snd acc) ++ [a]).
Proof.
  induction acc as [|[k' g] acc IH]; cbn [push_under]; [reflexivity |].
  destruct (String.eqb k' k); cbn [map snd concat].
  - rewrite <- !app_assoc. apply Permutation_app_head.
    apply Permutation_app_comm.
  - rewrite IH, app_assoc. reflexivity.
Qed.

Lemma group_entries_perm (l : list A) :
  Permutation (concat (map snd (group_entries key l))) l.
Proof.
  unfold group_entries.
  assert (H : forall acc, Permutation
             (concat (map snd (fold_left (fun acc a => push_under (key a) a acc) l acc)))
             (concat (map snd acc) ++ l)).
  { induction l as [|a l IH]; intros acc; cbn [fold_left].
    - rewrite app_nil_r. reflexivity.
    - rewrite IH, push_under_concat, <- app_assoc. reflexivity. }
  apply (H []).
Qed.

End ReduceFacts.

Section ReduceOrder.

Context {A : Type}.
Variable key : A -> string.
Variable rank : A -> Z.
Hypothesis key_rank : forall a b, key a = key b <-> rank a = rank b.

Lemma push_under_members k a (acc : list (string * list A)) q y :
  In q (push_under k a acc) -> In y (snd q) ->
  y = a \/ exists q', In q' acc /\ In y (snd q').
Proof.
  intros Hq Hy.
  assert (Hin : In y (concat (map snd (push_under k a acc)))).
  { apply in_concat. exists (snd q). split; [apply in_map, Hq | exact Hy]. }
  apply (Permutation_in _ (push_under_concat k a acc)) in Hin.
  apply in_app_or in Hin. destruct Hin as [Hin | [<- | []]]; [| left; reflexivity].
  right. apply in_concat in Hin. destruct Hin as (g & Hg & Hyg).
  apply in_map_iff in Hg. destruct Hg as (q' & <- & Hq'). exists q'. split; assumption.
Qed.

Lemma push_under_ordered a : forall acc : list (string * list A),
  List.Forall (group_ok key) acc ->
  StronglySorted (group_before rank) acc ->
  (forall q x, In q acc -> In x (snd q) -> rank x <= rank a) ->
  concat (map snd (push_under (key a) a acc)) = concat (map snd acc) ++ [a] /\
  List.Forall (group_ok key) (push_under (key a) a acc) /\
  StronglySorted (group_before rank) (push_under (key a) a acc).
Proof.
  induction acc as [|[k' g] acc IH]; intros Hok Hsorted Hle; cbn [push_under].
  - split; [reflexivity |]. split.
    + constructor; [| constructor]. split; [discriminate |].
      constructor; [reflexivity | constructor].
    + constructor; constructor.
  - inversion Hok as [|? ? [Hne Hkeys] Hok']; subst.
    inversion Hsorted as [|? ? Hsorted' Hbefore]; subst.
    cbn [fst snd] in *.
    destruct (String.eqb_spec k' (key a)) as [Heq | Hneq].
    + assert (Hacc : acc = []).
      { destruct acc as [|q acc]; [reflexivity |]. exfalso.
        inversion Hok' as [|? ? [Hqne _] _]; subst.
        inversion Hbefore as [|? ? Hpq _]; subst.
        destruct g as [|x g]; [contradiction |].
        destruct (snd q) as [|y gq] eqn:Hq; [contradiction |].
        assert (Hxy : rank x < rank y).
        { apply Hpq; [left; reflexivity | rewrite Hq; left; reflexivity]. }
        assert (Hx : rank x = rank a).
        { apply key_rank. inversion Hkeys; subst. congruence. }
        assert (Hy : rank y <= rank a).
        { apply (Hle q); [right; left; reflexivity | rewrite Hq; left; reflexivity]. }
        lia. }
      subst acc. cbn [map snd concat]. rewrite !app_nil_r.
      split; [reflexivity |]. split.
      * constructor; [| constructor]. split; cbn [fst snd].
        -- destruct g; discriminate.
        -- apply Forall_app. split; [exact Hkeys |].
           constructor; [symmetry; exact Heq | constructor].
      * constructor; constructor.
    + destruct (IH Hok' Hsorted') as (Hcat & Hok2 & Hsorted2).
      { intros q x Hq Hx. apply (Hle q); [right; exact Hq | exact Hx]. }
      cbn [map snd concat]. rewrite Hcat, app_assoc. split; [reflexivity |].
      split; [constructor; [split; assumption | exact Hok2] |].
      constructor; [exact Hsorted2 |].
      apply List.Forall_forall. intros q Hq x y Hx Hy. cbn [snd] in Hx.
      destruct (push_under_members _ _ _ _ _ Hq Hy) as [-> | (q' & Hq' & Hyq')].
      * assert (Hxa : rank x <= rank a).
        { apply (Hle (k', g)); [left; reflexivity | exact Hx]. }
        assert (Hkx : key x = k').
        { rewrite List.Forall_forall in Hkeys. apply Hkeys, Hx. }
        assert (rank x <> rank a).
        { intros Hr. apply key_rank in Hr. congruence. }
        lia.
      * rewrite List.Forall_forall in Hbefore. apply (Hbefore q' Hq'); assumption.
Qed.

Lemma group_entries_ordered_fold (l : list A) : forall acc : list (string * list A),
  List.Forall (group_ok key) acc ->
  StronglySorted (group_before rank) acc ->
  StronglySorted (fun a b => rank a <= rank b) l ->
  (forall q x a, In q acc -> In x (snd q) -> In a l -> rank x <= rank a) ->
  let acc' := fold_left (fun acc a => push_under (key a) a acc) l acc in
  concat (map snd acc') = concat (map snd acc) ++ l /\
  List.Forall (group_ok key) acc' /\
  StronglySorted (group_before rank) acc'.
Proof.
  induction l as [|a l IH]; intros acc Hok Hsorted Hl Hle; cbn [fold_left].
  - rewrite app_nil_r. repeat split; assumption.
  - inversion Hl as [|? ? Hl' Hal]; subst.
    destruct (push_under_ordered a acc Hok Hsorted) as (Hcat & Hok1 & Hsorted1).
    { intros q x Hq Hx. apply (Hle q x a Hq Hx). left. reflexivity. }
    destruct (IH (push_under (key a) a acc) Hok1 Hsorted1 Hl') as (Hcat2 & Hok2 & Hs2).
    { intros q x b Hq Hx Hb.
      destruct (push_under_members _ _ _ _ _ Hq Hx) as [-> | (q' & Hq' & Hxq')].
      - rewrite List.Forall_forall in Hal. apply Hal, Hb.
      - apply (Hle q' x b Hq' Hxq'). right. exact Hb. }
    rewrite Hcat2, Hcat, <- app_assoc. repeat split; assumption.
Qed.

Lemma group_entries_ordered (l : list A) :
  StronglySorted (fun a b => rank a <= rank b) l ->
  concat (map snd (group_entries key l)) = l /\
  List.Forall (group_ok key) (group_entries key l) /\
  StronglySorted (group_before rank) (group_entries key l).
Proof.
  intros Hl.
  apply (group_entries_ordered_fold l []); [constructor | constructor | exact Hl |].
  intros q x a [].
Qed.

End ReduceOrder.

Lemma digit_inj a b : 0 <= a < 10 -> 0 <= b < 10 -> digit a = digit b -> a = b.
Proof.
  intros Ha Hb H. unfold digit in H.
  apply (f_equal nat_of_ascii) in H.
  rewrite !nat_ascii_embedding in H by lia. lia.
Qed.

Lemma HHmm_inj m n : 0 <= m < 1440 -> 0 <= n < 1440 -> HHmm m = HHmm n -> m = n.
Proof.
  intros Hm Hn H. unfold HHmm, two_digits in H. cbn [String.append] in H.
  injection H as H1 H2 H3 H4.
  apply digit_inj in H1; [| Z.div_mod_to_equations; lia ..].
  apply digit_inj in H2; [| Z.div_mod_to_equations; lia ..].
  apply digit_inj in H3; [| Z.div_mod_to_equations; lia ..].
  apply digit_inj in H4; [| Z.div_mod_to_equations; lia ..].
  Z.div_mod_to_equations. lia.
Qed.

Lemma minute_of_day_range h x : 0 <= minute_of_day h x < 1440.
Proof. unfold minute_of_day. apply Z.mod_pos_bound. lia. Qed.

Lemma format_HHmm_eq h x y :
  format_HHmm h x = format_HHmm h y <-> minute_of_day h x = minute_of_day h y.
Proof.
  unfold format_HHmm. split; [| intros ->; reflexivity].
  apply HHmm_inj; apply minute_of_day_range.
Qed.

(** On a local day of one offset the time of day grows with the instant. *)
Lemma minute_of_day_mono h o D x y :
  offset_at h x = o -> offset_at h y = o ->
  LocalTime h x / ms_per_day = D -> LocalTime h y / ms_per_day = D ->
  x <= y ->
  minute_of_day h x <= minute_of_day h y.
Proof.
  unfold minute_of_day, LocalTime, ms_per_day, Moment.ms_per_minute.
  intros -> -> Hx Hy Hle. revert Hx Hy.
  Z.div_mod_to_equations. lia.
Qed.

Lemma StronglySorted_weaken {A} (R R' : A -> A -> Prop) (l : list A) :
  (forall a b, In a l -> In b l -> R a b -> R' a b) ->
  StronglySorted R l -> StronglySorted R' l.
Proof.
  induction l as [|a l IH]; intros Himp Hs; [constructor |].
  inversion Hs as [|? ? Hl Ha]; subst. constructor.
  - apply IH; [| exact Hl]. intros x y Hx Hy. apply Himp; right; assumption.
  - rewrite List.Forall_forall in *. intros b Hb.
    apply Himp; [left; reflexivity | right; exact Hb | apply Ha, Hb].
Qed.

(** X2. Whatever list is grouped: the keys are distinct, no group is empty,
    the group under a time holds exactly the appointments that start at
    that time of day, in their order, and nothing is lost or repeated. *)
Theorem groupedAppointments_partition h (l : list AppointmentType) :
  let groups := groupedAppointments h l in
  List.NoDup (map fst groups) /\
  (forall k g, In (k, g) groups <->
     g = List.filter (fun a => String.eqb (format_HHmm h (appointment_date a)) k) l /\
     g <> []) /\
  Permutation (concat (map snd groups)) l /\
  (groups = [] <-> l = []).
Proof.
  intros groups. subst groups. unfold groupedAppointments.
  destruct (group_entries_spec
              (fun app => format_HHmm h (appointment_date app)) l) as [Hnd Hin].
  pose proof (group_entries_perm
                (fun app => format_HHmm h (appointment_date app)) l) as Hperm.
  split; [exact Hnd |]. split; [exact Hin |]. split; [exact Hperm |].
  split.
  - intros Hnil. rewrite Hnil in Hperm. cbn in Hperm.
    apply Permutation_nil in Hperm. exact Hperm.
  - intros ->. reflexivity.
Qed.

(** X3. The timeline of the day view.  Appointments that fall on one local
    day, at instants at which the zone has one and the same offset (no
    clock changes among them), sorted by start as the day view sorts them:
    the groups come in increasing time of day, and reading them one after
    the other gives the sorted appointments in their order. *)
Theorem groupedAppointments_timeline h (dayApps : list AppointmentType) (o D : Z) :
  (forall a, In a dayApps ->
     offset_at h (appointment_date a) = o /\
     LocalTime h (appointment_date a) / ms_per_day = D) ->
  let shown := sort_by_start dayApps in
  let groups := groupedAppointments h shown in
  concat (map snd groups) = shown /\
  StronglySorted
    (group_before (fun a => minute_of_day h (appointment_date a))) groups.
Proof.
  intros Hday shown groups.
  pose proof (sort_by_start_sorted dayApps) as Hsorted. fold shown in Hsorted.
  assert (Hmem : forall a, In a shown -> In a dayApps).
  { intros a. apply Permutation_in, sort_by_start_perm. }
  assert (Hrank : StronglySorted
            (fun a b => minute_of_day h (appointment_date a)
                        <= minute_of_day h (appointment_date b)) shown).
  { revert Hsorted. apply StronglySorted_weaken. intros a b Ha Hb Hab.
    destruct (Hday a (Hmem a Ha)) as [Hoa Hda], (Hday b (Hmem b Hb)) as [Hob Hdb].
    apply (minute_of_day_mono h o D); assumption. }
  destruct (group_entries_ordered
              (fun app => format_HHmm h (appointment_date app))
              (fun a => minute_of_day h (appointment_date a))
              (fun a b => format_HHmm_eq h _ _) shown Hrank) as (Hcat & _ & Hord).
  split; assumption.
Qed.

(** Three appointments of one day, three hours behind UTC, stored out of
    order: 10:00 twice and 09:15. *)
Lemma groupedAppointments_timeline_witness :
  let at_minute i m := {| id := Some i; client_id := 3; professional_id := 1;
                          service_id := 5; price := of_Z 5000;
                          appointment_date := (m + 180) * 60000;
                          end_date := (m + 210) * 60000; attended := false;
                          client_name := "Ana"; professional := "Bia";
                          service := "Corte" |} in
  let apps := [at_minute 1 600; at_minute 2 555; at_minute 3 600] in
  let shown := filteredAppointments (-180) apps (Some (900 * 60000)) None in
  let groups := groupedAppointments (fixed_zone (-180)) shown in
  shown = [at_minute 2 555; at_minute 1 600; at_minute 3 600] /\
  map fst groups = ["09:15"%string; "10:00"%string] /\
  concat (map snd groups) = shown.
Proof.
  intros at_minute apps shown groups.
  split; [reflexivity |]. split; [reflexivity |].
  apply (groupedAppointments_timeline (fixed_zone (-180)) apps (-10800000) 0).
  intros a Ha. cbn [In apps] in Ha.
  destruct Ha as [<- | [<- | [<- | []]]]; split; reflexivity.
Defined.

(** Without that condition the order of the groups can break.  New York,
    2024-11-03, the day on which 01:00 to 02:00 comes twice: an appointment
    at 01:30 before the clock goes back and one at 01:10 after it are in
    the order of their instants, and their groups are 01:30, then 01:10. *)
Example timeline_when_the_clock_goes_back :
  let at_instant i x := {| id := Some i; client_id := 3; professional_id := 1;
                           service_id := 5; price := of_Z 5000;
                           appointment_date := x; end_date := x + 600000;
                           attended := false;
                           client_name := "Ana"; professional := "Bia";
                           service := "Corte" |} in
  let apps := [at_instant 1 1730611800000; at_instant 2 1730614200000] in
  sort_by_start apps = apps /\
  map (fun a => LocalTime new_york_autumn_2024 (appointment_date a) / ms_per_day) apps
    = [20030; 20030] /\
  map fst (groupedAppointments new_york_autumn_2024 (sort_by_start apps))
    = ["01:30"%string; "01:10"%string].
Proof. repeat split; vm_compute; reflexivity. Qed.

(** ** Moving between days *)

Lemma handleDayNavigation_run h direction w :
  let d0 := match w_selectedDate w with Some d => d | None => Some (w_now w) end in
  let d1 := add_days h d0 (match direction with prev => -1 | next => 1 end) in
  handleDayNavigation h direction w =
  (tt, set_selectedDate (Some d1) (set_moments (w_moments w ++ [d1]) w)).
Proof.
  intros d0 d1. unfold handleDayNavigation, obj_toDate, bind, gets, new_moment,
    obj_add_days, modify. cbv beta iota.
  fold d0. rewrite read_moment_new.
  change (w_moments (set_moments ?ms w)) with ms.
  rewrite insert_last.
  change (set_moments ?a (set_moments ?b w)) with (set_moments a w).
  rewrite read_moment_new. reflexivity.
Qed.

(** The instant a move by [n] days arrives at, and what it shows when the
    zone has there the offset the target wall-clock time was read with. *)
Lemma add_days_Some h x0 n x1 :
  add_days h (Some x0) n = Some x1 ->
  x1 - x0 = n * ms_per_day
            + (offset_at h x0 - offset_of_local h (LocalTime h x0 + n * ms_per_day)) /\
  (offset_at h x1 = offset_of_local h (LocalTime h x0 + n * ms_per_day) ->
   LocalTime h x1 = LocalTime h x0 + n * ms_per_day /\
   LocalTime h x1 / ms_per_day = LocalTime h x0 / ms_per_day + n /\
   minute_of_day h x1 = minute_of_day h x0).
Proof.
  unfold add_days. intros H. apply time_clip_Some in H. destruct H as [-> _].
  unfold UTC. split; [unfold LocalTime; ring |]. intros Ho.
  assert (HL : LocalTime h (LocalTime h x0 + n * ms_per_day
                            - offset_of_local h (LocalTime h x0 + n * ms_per_day))
               = LocalTime h x0 + n * ms_per_day).
  { unfold LocalTime at 1. rewrite Ho. ring. }
  split; [exact HL |]. unfold minute_of_day. rewrite HL. split.
  - unfold ms_per_day. apply Z.div_add. discriminate.
  - unfold ms_per_day, Moment.ms_per_minute.
    replace (LocalTime h x0 + n * 86400000)
      with (LocalTime h x0 + (n * 1440) * 60000) by ring.
    rewrite Z.div_add by discriminate.
    replace (LocalTime h x0 / 60000 + n * 1440)
      with (LocalTime h x0 / 60000 + n * 1440) by ring.
    apply Z.mod_add. discriminate.
Qed.

(** Going [n] days and then [-n] days comes back to where one started, when
    both wall-clock times are read with the offset in force at the
    instants they are read as. *)
Lemma add_days_back h x0 n x1 :
  Z.abs x0 <= Moment.max_time ->
  add_days h (Some x0) n = Some x1 ->
  offset_at h x1 = offset_of_local h (LocalTime h x0 + n * ms_per_day) ->
  offset_of_local h (LocalTime h x0) = offset_at h x0 ->
  add_days h (Some x1) (- n) = Some x0.
Proof.
  intros Hx0 H1 Ho1 Ho0.
  destruct (add_days_Some h x0 n x1 H1) as [_ HL]. destruct (HL Ho1) as [HL1 _].
  unfold add_days. rewrite HL1.
  replace (LocalTime h x0 + n * ms_per_day + - n * ms_per_day) with (LocalTime h x0) by ring.
  unfold UTC. rewrite Ho0. unfold LocalTime.
  replace (x0 + offset_at h x0 - offset_at h x0) with x0 by ring.
  apply time_clip_in_range, Hx0.
Qed.

(** X4. The arrows of the day view, from a chosen day that is a valid date
    (today when none is chosen).  The new date is the instant that the
    same wall-clock time, one calendar day away, is read as.  It lies 24
    hours away, corrected by the change of offset between the two
    instants.  When the zone has there the offset that wall-clock time was
    read with (the time exists on that day), the local day has moved by
    exactly one and the time of day is the same; when moreover the time
    one started from is read as the instant one started from, going back
    returns to it.  The store, the professional filter and the form are
    not touched. *)
Theorem day_navigation h (w : World) (x0 : Z) :
  match w_selectedDate w with Some d => d | None => Some (w_now w) end = Some x0 ->
  let after dir := snd (handleDayNavigation h dir w) in
  let step dir := match dir with prev => -1 | next => 1 end in
  let target dir := LocalTime h x0 + step dir * ms_per_day in
  (forall dir,
     w_selectedDate (after dir) = Some (Moment.time_clip (UTC h (target dir)))) /\
  (forall dir x1,
     w_selectedDate (after dir) = Some (Some x1) ->
     x1 - x0 = step dir * ms_per_day
               + (offset_at h x0 - offset_of_local h (target dir)) /\
     (offset_at h x1 = offset_of_local h (target dir) ->
      LocalTime h x1 = target dir /\
      LocalTime h x1 / ms_per_day = LocalTime h x0 / ms_per_day + step dir /\
      minute_of_day h x1 = minute_of_day h x0 /\
      (Z.abs x0 <= Moment.max_time ->
       offset_of_local h (LocalTime h x0) = offset_at h x0 ->
       w_selectedDate
         (snd (handleDayNavigation h (match dir with prev => next | next => prev end)
                 (after dir))) = Some (Some x0)))) /\
  (forall dir, w_appointments (after dir) = w_appointments w /\
               w_selectedProfessionalId (after dir) = w_selectedProfessionalId w /\
               w_form (after dir) = w_form w).
Proof.
  intros Hd0 after step target.
  assert (Hrun : forall dir w0,
            w_selectedDate (snd (handleDayNavigation h dir w0))
            = Some (add_days h (match w_selectedDate w0 with
                                | Some d => d
                                | None => Some (w_now w0)
                                end) (step dir))).
  { intros dir w0. rewrite handleDayNavigation_run. reflexivity. }
  assert (Hsel : forall dir,
            w_selectedDate (after dir) = Some (add_days h (Some x0) (step dir))).
  { intros dir. unfold after. rewrite Hrun, Hd0. reflexivity. }
  split; [intros dir; rewrite Hsel; reflexivity |]. split.
  - intros dir x1 H1. pose proof H1 as H1'. rewrite Hsel in H1'. injection H1' as H1'.
    destruct (add_days_Some h x0 (step dir) x1 H1') as [Hdiff HL].
    split; [exact Hdiff |]. intros Ho. destruct (HL Ho) as (HL1 & Hday & Hmin).
    split; [exact HL1 |]. split; [exact Hday |]. split; [exact Hmin |].
    intros Hx0 Ho0. rewrite Hrun, H1. f_equal.
    replace (step (match dir with prev => next | next => prev end)) with (- step dir)
      by (destruct dir; reflexivity).
    apply (add_days_back h x0 (step dir) x1); assumption.
  - intros dir. unfold after. rewrite handleDayNavigation_run. repeat split.
Qed.

(** The example page, three hours behind UTC, no day chosen and the clock at
    the epoch: the next day is 24 hours later, and going back returns to
    the epoch. *)
Lemma day_navigation_witness :
  let h := fixed_zone (-180) in
  let w1 := snd (handleDayNavigation h next example_world) in
  w_selectedDate w1 = Some (Some 86400000) /\
  minute_of_day h 86400000 = minute_of_day h 0 /\
  w_selectedDate (snd (handleDayNavigation h prev w1)) = Some (Some 0).
Proof.
  intros h w1.
  destruct (day_navigation h example_world 0 eq_refl) as (Hsel & Hmove & _).
  pose proof (Hsel next) as H1. cbv beta in H1.
  change (w_selectedDate w1 = Some (Some 86400000)) in H1.
  split; [exact H1 |].
  destruct (Hmove next 86400000 H1) as [_ Hkeep].
  destruct (Hkeep eq_refl) as (_ & _ & Hmin & Hback).
  split; [exact Hmin |].
  apply Hback; [vm_compute; discriminate | reflexivity].
Defined.

(** Where a clock changes, a calendar day is not 24 hours.  New York, from
    noon on 2024-03-09 (17:00 UTC) to the next day: noon again, 23 hours
    later. *)
Example day_navigation_when_the_clock_goes_forward :
  let h := new_york_spring_2024 in
  let w := set_selectedDate (Some (Some 1710003600000)) example_world in
  let w1 := snd (handleDayNavigation h next w) in
  w_selectedDate w1 = Some (Some (1710003600000 + 82800000)) /\
  minute_of_day h 1710003600000 = 720 /\
  minute_of_day h (1710003600000 + 82800000) = 720.
Proof. repeat split; vm_compute; reflexivity. Qed.

(** ** The professional filter *)

Lemma find_option_of p (ps : list ProfessionalType) :
  find (fun o => strict_eq_id (opt_id o) (Some p)) (map option_of ps) =
  option_map option_of (find (fun q => professional_id_of q =? p) ps).
Proof.
  induction ps as [|q ps IH]; [reflexivity |]. cbn [map find option_of opt_id strict_eq_id].
  destruct (professional_id_of q =? p); [reflexivity | exact IH].
Qed.

(** X5. What the dropdown displays: the entry for all professionals when none
    is chosen, the first professional with the chosen id when there is
    one, and again the entry for all when the chosen id belongs to no
    professional, while the day view keeps filtering on that id.  Picking a
    professional's entry chooses its id, picking the entry for all (or
    clearing) chooses none. *)
Theorem professional_filter_dropdown off (ps : list ProfessionalType) :
  dropdown_value (professionalOptions ps) None = Some allOption /\
  (forall p,
     dropdown_value (professionalOptions ps) (Some p) =
     Some (match find (fun q => professional_id_of q =? p) ps with
           | Some q => option_of q
           | None => allOption
           end)) /\
  (forall p apps d app,
     find (fun q => professional_id_of q =? p) ps = None ->
     dropdown_value (professionalOptions ps) (Some p) = Some allOption /\
     (In app (filteredAppointments off apps (Some d) (Some p)) ->
      professional_id app = p)) /\
  (forall w q,
     w_selectedProfessionalId (snd (onProfessionalChange (Some (option_of q)) w))
       = Some (professional_id_of q) /\
     w_selectedProfessionalId (snd (onProfessionalChange (Some allOption) w)) = None /\
     w_selectedProfessionalId (snd (onProfessionalChange None w)) = None).
Proof.
  assert (Hsome : forall p,
     dropdown_value (professionalOptions ps) (Some p) =
     Some (match find (fun q => professional_id_of q =? p) ps with
           | Some q => option_of q
           | None => allOption
           end)).
  { intros p. unfold dropdown_value, professionalOptions.
    cbn [find allOption opt_id strict_eq_id]. rewrite find_option_of.
    destruct (find (fun q => professional_id_of q =? p) ps); reflexivity. }
  split; [reflexivity |]. split; [exact Hsome |]. split.
  - intros p apps d app Hnone. split; [rewrite Hsome, Hnone; reflexivity |].
    intros Hin. apply filteredAppointments_In in Hin.
    destruct Hin as (_ & _ & Hp). apply Hp. reflexivity.
  - intros w q. repeat split.
Qed.

Lemma professional_filter_dropdown_witness :
  dropdown_value (professionalOptions (w_professionals example_world)) (Some 9)
    = Some allOption /\
  (In example_existing
      (filteredAppointments 0 (w_appointments example_world) (Some 0) (Some 9)) ->
   professional_id example_existing = 9).
Proof.
  exact (proj1 (proj2 (proj2 (professional_filter_dropdown 0
                                (w_professionals example_world))))
           9 (w_appointments example_world) 0 example_existing eq_refl).
Defined.

(** ** More on the conflict test *)


(** X6. Two stored appointments conflict with each other or not at all: the
    test gives the same answer whichever of the two is the candidate. *)
Theorem conflict_symmetric (A B : AppointmentType) :
  conflicts None (Some (professional_id A))
    (Some (appointment_date A)) (Some (end_date A)) B =
  conflicts None (Some (professional_id B))
    (Some (appointment_date B)) (Some (end_date B)) A.
Proof.
  unfold conflicts. cbn [excluded strict_eq_num Moment.isBefore Moment.isAfter].
  rewrite (Z.eqb_sym (professional_id B) (professional_id A)).
  destruct (professional_id A =? professional_id B); cbn [negb]; [| reflexivity].
  apply andb_comm.
Qed.



Lemma conflicts_invalid_start ed pid ne app : conflicts ed pid None ne app = false.
Proof.
  unfold conflicts. destruct (excluded ed app); [reflexivity |].
  destruct (negb (strict_eq_num (professional_id app) pid)); reflexivity.
Qed.

Lemma conflicts_invalid_end ed pid ns app : conflicts ed pid ns None app = false.
Proof.
  unfold conflicts. destruct (excluded ed app); [reflexivity |].
  destruct (negb (strict_eq_num (professional_id app) pid)); [reflexivity |].
  cbv zeta. destruct ns; apply andb_false_r.
Qed.

(** X8. A form whose start or end is not a date (the empty text of a cleared
    field) is never found in conflict, whatever the store holds: the search
    answers nothing and the submission goes on to the reference checks. *)
Theorem undated_form_never_conflicts h (data : AppointmentFormData) (w : World) :
  moment h (f_appointment_date data) = None \/ moment h (f_end_date data) = None ->
  fst (find_conflicting h data w) = None /\
  has_conflict (w_editingAppointment w) (Number (f_professional_id data))
    (moment h (f_appointment_date data)) (moment h (f_end_date data))
    (w_appointments w) = false.
Proof.
  intros Hinv.
  assert (Hnone : has_conflict (w_editingAppointment w) (Number (f_professional_id data))
            (moment h (f_appointment_date data)) (moment h (f_end_date data))
            (w_appointments w) = false).
  { apply has_conflict_false. apply List.Forall_forall. intros app _.
    destruct Hinv as [-> | ->];
      [apply conflicts_invalid_start | apply conflicts_invalid_end]. }
  split; [| exact Hnone].
  destruct (find_conflicting_run h data w) as [extra Hrun]. rewrite Hrun. cbn [fst].
  unfold has_conflict in Hnone.
  destruct (conflictingAppointment _ _ _ _ _); [discriminate | reflexivity].
Qed.

Lemma undated_form_never_conflicts_witness :
  let data := {| f_client_id := Some 3; f_professional_id := Some 1;
                 f_service_id := Some 5; f_price := None;
                 f_appointment_date := EmptyText; f_end_date := LocalMinute 630;
                 f_attended := None |} in
  (moment (fixed_zone 0) (f_appointment_date data) = None \/ moment (fixed_zone 0) (f_end_date data) = None) /\
  fst (find_conflicting (fixed_zone 0) data example_world) = None.
Proof.
  intros data.
  assert (H : moment (fixed_zone 0) (f_appointment_date data) = None
              \/ moment (fixed_zone 0) (f_end_date data) = None) by (left; reflexivity).
  split; [exact H |].
  exact (proj1 (undated_form_never_conflicts (fixed_zone 0) data example_world H)).
Defined.

(** ** The effect on price and end date, case by case *)

Lemma set_form_id w : set_form (w_form w) w = w.
Proof. destruct w; reflexivity. Qed.

(** What the effect writes when it finds the service. *)
Lemma end_date_effect_found h w svc :
  truthy_num (f_service_id (w_form w)) = true ->
  find (fun s => strict_eq_num (service_id_of s) (Number (f_service_id (w_form w))))
       (w_services w) = Some svc ->
  end_date_effect h w =
  (tt,
   let priced :=
     {| f_client_id := f_client_id (w_form w);
        f_professional_id := f_professional_id (w_form w);
        f_service_id := f_service_id (w_form w);
        f_price := Some (form_price (service_price svc));
        f_appointment_date := f_appointment_date (w_form w);
        f_end_date := f_end_date (w_form w);
        f_attended := f_attended (w_form w) |} in
   match f_appointment_date (w_form w) with
   | EmptyText => set_form priced w
   | start =>
       set_form
         {| f_client_id := f_client_id priced;
            f_professional_id := f_professional_id priced;
            f_service_id := f_service_id priced;
            f_price := f_price priced;
            f_appointment_date := f_appointment_date priced;
            f_end_date := derive_end_time h start svc;
            f_attended := f_attended priced |}
         (set_moments
            (w_moments w ++ [Moment.add_minutes (moment h start) (duration svc)]) w)
   end).
Proof.
  intros Hsid Hfind.
  unfold end_date_effect, bind, gets, modify. cbv beta iota.
  rewrite Hsid, Hfind.
  assert (Hlen : (0 <? Z.of_nat (length (w_services w))) = true).
  { destruct (w_services w); [discriminate | reflexivity]. }
  rewrite Hlen. cbn [andb].
  destruct (f_appointment_date (w_form w)) eqn:Hstart; cbn [truthy_text].
  - unfold ret. reflexivity.
  - rewrite newEndDate_of_run. reflexivity.
  - rewrite newEndDate_of_run. reflexivity.
Qed.

Lemma end_date_effect_no_service h w :
  truthy_num (f_service_id (w_form w)) = false -> end_date_effect h w = (tt, w).
Proof.
  intros H. unfold end_date_effect, bind, gets. cbv beta iota. rewrite H. reflexivity.
Qed.

Lemma end_date_effect_not_found h w :
  find (fun s => strict_eq_num (service_id_of s) (Number (f_service_id (w_form w))))
       (w_services w) = None ->
  end_date_effect h w = (tt, w).
Proof.
  intros H. unfold end_date_effect, bind, gets. cbv beta iota. rewrite H.
  destruct (truthy_num (f_service_id (w_form w))
            && (0 <? Z.of_nat (length (w_services w)))); reflexivity.
Qed.

(** X9. The effect does nothing at all when no service is chosen (the field is
    [undefined], or holds the id 0), when the store has no services, or
    when no service has the chosen id. *)
Theorem end_date_effect_nothing_to_do h (w : World) :
  truthy_num (f_service_id (w_form w)) = false \/
  w_services w = [] \/
  find (fun s => strict_eq_num (service_id_of s) (Number (f_service_id (w_form w))))
       (w_services w) = None ->
  end_date_effect h w = (tt, w).
Proof.
  intros [H | [H | H]].
  - apply end_date_effect_no_service, H.
  - apply end_date_effect_not_found. rewrite H. reflexivity.
  - apply end_date_effect_not_found, H.
Qed.

Lemma end_date_effect_nothing_to_do_witness :
  (truthy_num (f_service_id (w_form example_world)) = false \/
   w_services example_world = [] \/
   find (fun s => strict_eq_num (service_id_of s)
                    (Number (f_service_id (w_form example_world))))
        (w_services example_world) = None) /\
  end_date_effect (fixed_zone 0) example_world = (tt, example_world).
Proof.
  assert (H : truthy_num (f_service_id (w_form example_world)) = false \/
              w_services example_world = [] \/
              find (fun s => strict_eq_num (service_id_of s)
                               (Number (f_service_id (w_form example_world))))
                   (w_services example_world) = None) by (left; reflexivity).
  split; [exact H | exact (end_date_effect_nothing_to_do (fixed_zone 0) example_world H)].
Defined.

(** X10. Whatever the state, the effect writes the price and the end date of
    the form and nothing else: the other fields of the form, the store, the
    toasts, the modal and the edited appointment are as before; and while
    the start is empty it leaves the end date alone too. *)
Theorem end_date_effect_frame h (w : World) :
  let w' := snd (end_date_effect h w) in
  f_client_id (w_form w') = f_client_id (w_form w) /\
  f_professional_id (w_form w') = f_professional_id (w_form w) /\
  f_service_id (w_form w') = f_service_id (w_form w) /\
  f_appointment_date (w_form w') = f_appointment_date (w_form w) /\
  f_attended (w_form w') = f_attended (w_form w) /\
  w_appointments w' = w_appointments w /\
  w_services w' = w_services w /\
  w_toasts w' = w_toasts w /\
  w_store_calls w' = w_store_calls w /\
  w_isModalOpen w' = w_isModalOpen w /\
  w_editingAppointment w' = w_editingAppointment w /\
  (f_appointment_date (w_form w) = EmptyText ->
   f_end_date (w_form w') = f_end_date (w_form w) /\ w_moments w' = w_moments w).
Proof.
  intros w'. subst w'.
  destruct (truthy_num (f_service_id (w_form w))) eqn:Hsid.
  - destruct (find (fun s => strict_eq_num (service_id_of s)
                               (Number (f_service_id (w_form w)))) (w_services w))
      as [svc|] eqn:Hfind.
    + rewrite (end_date_effect_found h w svc Hsid Hfind). cbn [snd]. cbv zeta.
      destruct (f_appointment_date (w_form w)) eqn:Hstart;
        repeat split; try reflexivity; try discriminate.
    + rewrite end_date_effect_not_found by exact Hfind. repeat split.
  - rewrite end_date_effect_no_service by exact Hsid. repeat split.
Qed.

(** ** The price of a chosen service *)

(** X11. Choosing a service and saving stores the service's price: for a
    service priced at an integer number of minor units up to
    [max_round_trip_price], the price the effect writes into the form is
    sent to the store as that same integer. *)
Theorem service_price_is_saved h (w : World) (svc : ServiceType) (n : Z)
    (client : ClientType) (prof : ProfessionalType) (found : ServiceType) :
  truthy_num (f_service_id (w_form w)) = true ->
  find (fun s => strict_eq_num (service_id_of s) (Number (f_service_id (w_form w))))
       (w_services w) = Some svc ->
  service_price svc = of_Z n ->
  0 <= n <= max_round_trip_price ->
  let w' := snd (end_date_effect h w) in
  f_price (w_form w') = Some (form_price (of_Z n)) /\
  a_price (appointmentData_of (w_editingAppointment w') (w_form w') client prof found)
    = of_Z n.
Proof.
  intros Hsid Hfind Hprice Hn w'. subst w'.
  rewrite (end_date_effect_found h w svc Hsid Hfind). cbn [snd]. cbv zeta.
  assert (Hf : forall w0, f_price (w_form w0) = Some (form_price (of_Z n)) ->
             a_price (appointmentData_of (w_editingAppointment w0) (w_form w0)
                        client prof found) = of_Z n).
  { intros w0 H0. unfold appointmentData_of. cbn [a_price]. rewrite H0.
    apply price_round_trip, Hn. }
  destruct (f_appointment_date (w_form w)); (split; [| apply Hf]);
    cbn [w_form set_form f_price]; rewrite Hprice; reflexivity.
Qed.

Lemma service_price_is_saved_witness :
  let w := set_form {| f_client_id := None; f_professional_id := None;
                       f_service_id := Some 5; f_price := None;
                       f_appointment_date := LocalMinute 600;
                       f_end_date := EmptyText; f_attended := Some false |}
                    example_world in
  let svc := {| service_id_of := 5; service_name := "Corte";
                service_price := of_Z 5000; duration := 30 |} in
  let w' := snd (end_date_effect (fixed_zone 0) w) in
  f_price (w_form w') = Some (form_price (of_Z 5000)) /\
  a_price (appointmentData_of (w_editingAppointment w') (w_form w')
             {| client_id_of := 3; client_name_of := "Ana" |}
             {| professional_id_of := 1; professional_name := "Bia" |} svc)
    = of_Z 5000.
Proof.
  intros w svc w'.
  apply (service_price_is_saved (fixed_zone 0) w svc 5000);
    [reflexivity | reflexivity | reflexivity | unfold max_round_trip_price; lia].
Defined.

(** ** Submitting when no conflict is found *)

(** [onSubmit] past the search for a conflict. *)
Lemma onSubmit_past_conflict h store_add store_update data w u :
  w_user w = Some u ->
  has_conflict (w_editingAppointment w) (Number (f_professional_id data))
    (moment h (f_appointment_date data)) (moment h (f_end_date data))
    (w_appointments w) = false ->
  exists extra,
    let w1 := set_moments (w_moments w ++ extra) w in
    onSubmit h store_add store_update data w =
    match
      find (fun c => strict_eq_num (client_id_of c) (Number (f_client_id data)))
           (w_clients w),
      find (fun p => strict_eq_num (professional_id_of p)
                                   (Number (f_professional_id data)))
           (w_professionals w),
      find (fun s => strict_eq_num (service_id_of s) (Number (f_service_id data)))
           (w_services w)
    with
    | Some client, Some professional, Some service =>
        let d := appointmentData_of (w_editingAppointment w) data
                   client professional service in
        match w_editingAppointment w with
        | Some _ =>
            let (ok, w2) := updateAppointment store_update d w1 in
            if ok then
              bind (toast (showSuccess "Agendamento atualizado!"))
                   (fun _ => handleCloseModal) w2
            else toast (showError "Não foi possível salvar"
                                  "Verifique os dados e tente novamente.") w2
        | None =>
            let (ok, w2) := addAppointment store_add d u w1 in
            if ok then
              bind (toast (showSuccess "Agendamento criado!"))
                   (fun _ => handleCloseModal) w2
            else toast (showError "Não foi possível salvar"
                                  "Verifique os dados e tente novamente.") w2
        end
    | _, _, _ =>
        toast (showError "Dados inválidos."
                         "Cliente, profissional ou serviço não encontrado.") w1
    end.
Proof.
  intros Hu Hc. unfold onSubmit, bind at 1, gets at 1. rewrite Hu.
  unfold bind at 1, gets at 1. unfold bind at 1.
  destruct (find_conflicting_run h data w) as [extra Hrun]. rewrite Hrun.
  unfold has_conflict in Hc.
  destruct (conflictingAppointment _ _ _ _ _); [discriminate |].
  exists extra. cbv zeta.
  unfold bind at 1, gets at 1. unfold bind at 1, gets at 1.
  unfold bind at 1, gets at 1.
  cbn [w_clients w_professionals w_services set_moments].
  destruct (find _ (w_clients w)); [| reflexivity].
  destruct (find _ (w_professionals w)); [| reflexivity].
  destruct (find _ (w_services w)); [| reflexivity].
  destruct (w_editingAppointment w); unfold bind.
  - destruct (updateAppointment store_update _ _) as [[] w2]; reflexivity.
  - destruct (addAppointment store_add _ _ _) as [[] w2]; reflexivity.
Qed.

(** X12. A client, professional or service that the store does not have: the
    submission ends with the toast about invalid data; the store is not
    called, and the form, the modal and the edited appointment stay as they
    are. *)
Theorem onSubmit_missing_reference h store_add store_update
    (data : AppointmentFormData) (w : World) u :
  w_user w = Some u ->
  has_conflict (w_editingAppointment w) (Number (f_professional_id data))
    (moment h (f_appointment_date data)) (moment h (f_end_date data))
    (w_appointments w) = false ->
  find (fun c => strict_eq_num (client_id_of c) (Number (f_client_id data)))
       (w_clients w) = None \/
  find (fun p => strict_eq_num (professional_id_of p) (Number (f_professional_id data)))
       (w_professionals w) = None \/
  find (fun s => strict_eq_num (service_id_of s) (Number (f_service_id data)))
       (w_services w) = None ->
  exists extra,
    onSubmit h store_add store_update data w =
    (tt, set_toasts
           (w_toasts w ++ [showError "Dados inválidos."
                             "Cliente, profissional ou serviço não encontrado."])
           (set_moments (w_moments w ++ extra) w)).
Proof.
  intros Hu Hc Hmiss.
  destruct (onSubmit_past_conflict h store_add store_update data w u Hu Hc)
    as [extra Hrun].
  exists extra. cbv zeta in Hrun. rewrite Hrun.
  destruct Hmiss as [-> | [-> | ->]].
  - reflexivity.
  - destruct (find _ (w_clients w)); reflexivity.
  - destruct (find _ (w_clients w)); [| reflexivity].
    destruct (find _ (w_professionals w)); reflexivity.
Qed.

Lemma onSubmit_missing_reference_witness :
  let data := {| f_client_id := Some 99; f_professional_id := Some 1;
                 f_service_id := Some 5; f_price := Some (form_price (of_Z 5000));
                 f_appointment_date := LocalMinute 660; f_end_date := LocalMinute 690;
                 f_attended := None |} in
  exists extra,
    onSubmit (fixed_zone 0) (fun _ _ w => (true, w)) (fun _ w => (true, w)) data example_world =
    (tt, set_toasts
           (w_toasts example_world
              ++ [showError "Dados inválidos."
                    "Cliente, profissional ou serviço não encontrado."])
           (set_moments (w_moments example_world ++ extra) example_world)).
Proof.
  intros data.
  apply (onSubmit_missing_reference (fixed_zone 0) _ _ data example_world "user-1"%string);
    [reflexivity | reflexivity | left; reflexivity].
Defined.

(** X13. A new appointment that passes the checks: the store's
    [addAppointment] is called once, with the data built from the form (no
    id, the names of the first client, professional and service that carry
    the chosen ids) and the user's id.  If the store resolves, the success
    toast is shown, the modal closes and the form is back at its defaults;
    if it rejects, the error toast is shown and the modal and the form are
    left as the store left them, so the user can try again. *)
Theorem onSubmit_creates h store_add store_update
    (data : AppointmentFormData) (w : World) u client prof svc :
  w_user w = Some u ->
  w_editingAppointment w = None ->
  has_conflict None (Number (f_professional_id data))
    (moment h (f_appointment_date data)) (moment h (f_end_date data))
    (w_appointments w) = false ->
  find (fun c => strict_eq_num (client_id_of c) (Number (f_client_id data)))
       (w_clients w) = Some client ->
  find (fun p => strict_eq_num (professional_id_of p) (Number (f_professional_id data)))
       (w_professionals w) = Some prof ->
  find (fun s => strict_eq_num (service_id_of s) (Number (f_service_id data)))
       (w_services w) = Some svc ->
  exists extra,
    let d := appointmentData_of None data client prof svc in
    let w1 := set_store_calls (w_store_calls w ++ [call_addAppointment d u])
                (set_moments (w_moments w ++ extra) w) in
    let w2 := snd (store_add d u w1) in
    let w' := snd (onSubmit h store_add store_update data w) in
    a_id d = None /\
    a_client_name d = client_name_of client /\
    if fst (store_add d u w1) then
      w_toasts w' = w_toasts w2 ++ [showSuccess "Agendamento criado!"] /\
      w_isModalOpen w' = false /\
      w_editingAppointment w' = None /\
      w_form w' = defaultFormValues /\
      w_store_calls w' = w_store_calls w2
    else
      w' = set_toasts (w_toasts w2 ++ [showError "Não foi possível salvar"
                                         "Verifique os dados e tente novamente."]) w2.
Proof.
  intros Hu Hed Hc Hcl Hpr Hsv.
  rewrite <- Hed in Hc.
  destruct (onSubmit_past_conflict h store_add store_update data w u Hu Hc)
    as [extra Hrun].
  exists extra. cbv zeta in Hrun |- *. rewrite Hrun, Hcl, Hpr, Hsv, Hed.
  unfold addAppointment. cbn [w_store_calls set_moments].
  destruct (store_add _ u _) as [ok w2]. cbn [fst snd].
  split; [reflexivity |]. split; [reflexivity |].
  destruct ok; [| reflexivity]. repeat split.
Qed.

Lemma onSubmit_creates_witness :
  let data := {| f_client_id := Some 3; f_professional_id := Some 1;
                 f_service_id := Some 5; f_price := Some (form_price (of_Z 5000));
                 f_appointment_date := LocalMinute 660; f_end_date := LocalMinute 690;
                 f_attended := None |} in
  let w' := snd (onSubmit (fixed_zone 0) (fun _ _ w => (true, w)) (fun _ w => (true, w))
                   data example_world) in
  w_toasts w' = [showSuccess "Agendamento criado!"] /\
  w_isModalOpen w' = false /\ w_form w' = defaultFormValues.
Proof.
  intros data w'.
  destruct (onSubmit_creates (fixed_zone 0) (fun _ _ w => (true, w)) (fun _ w => (true, w))
              data example_world "user-1"%string
              {| client_id_of := 3; client_name_of := "Ana" |}
              {| professional_id_of := 1; professional_name := "Bia" |}
              {| service_id_of := 5; service_name := "Corte";
                 service_price := of_Z 5000; duration := 30 |}
              eq_refl eq_refl eq_refl eq_refl eq_refl eq_refl)
    as (extra & _ & _ & H).
  cbn [fst snd] in H. destruct H as (Ht & Hm & _ & Hf & _).
  split; [exact Ht |]. split; [exact Hm | exact Hf].
Defined.

(** X14. An edited appointment that passes the checks: the store's
    [updateAppointment] is called once, with the data built from the form
    under the id of the appointment being edited; [addAppointment] is not
    called.  The outcomes are as for a new appointment. *)
Theorem onSubmit_updates h store_add store_update
    (data : AppointmentFormData) (w : World) u ed client prof svc :
  w_user w = Some u ->
  w_editingAppointment w = Some ed ->
  has_conflict (Some ed) (Number (f_professional_id data))
    (moment h (f_appointment_date data)) (moment h (f_end_date data))
    (w_appointments w) = false ->
  find (fun c => strict_eq_num (client_id_of c) (Number (f_client_id data)))
       (w_clients w) = Some client ->
  find (fun p => strict_eq_num (professional_id_of p) (Number (f_professional_id data)))
       (w_professionals w) = Some prof ->
  find (fun s => strict_eq_num (service_id_of s) (Number (f_service_id data)))
       (w_services w) = Some svc ->
  exists extra,
    let d := appointmentData_of (Some ed) data client prof svc in
    let w1 := set_store_calls (w_store_calls w ++ [call_updateAppointment d])
                (set_moments (w_moments w ++ extra) w) in
    let w2 := snd (store_update d w1) in
    let w' := snd (onSubmit h store_add store_update data w) in
    a_id d = id ed /\
    if fst (store_update d w1) then
      w_toasts w' = w_toasts w2 ++ [showSuccess "Agendamento atualizado!"] /\
      w_isModalOpen w' = false /\
      w_editingAppointment w' = None /\
      w_form w' = defaultFormValues /\
      w_store_calls w' = w_store_calls w2
    else
      w' = set_toasts (w_toasts w2 ++ [showError "Não foi possível salvar"
                                         "Verifique os dados e tente novamente."]) w2.
Proof.
  intros Hu Hed Hc Hcl Hpr Hsv.
  rewrite <- Hed in Hc.
  destruct (onSubmit_past_conflict h store_add store_update data w u Hu Hc)
    as [extra Hrun].
  exists extra. cbv zeta in Hrun |- *. rewrite Hrun, Hcl, Hpr, Hsv, Hed.
  unfold updateAppointment. cbn [w_store_calls set_moments].
  destruct (store_update _ _) as [ok w2]. cbn [fst snd].
  split; [reflexivity |].
  destruct ok; [| reflexivity]. repeat split.
Qed.

Lemma onSubmit_updates_witness :
  let w := set_editingAppointment (Some example_existing) example_world in
  let w' := snd (onSubmit (fixed_zone 0) (fun _ _ w => (true, w)) (fun _ w => (true, w))
                   example_form w) in
  w_toasts w' = [showSuccess "Agendamento atualizado!"] /\
  w_isModalOpen w' = false /\ w_editingAppointment w' = None.
Proof.
  intros w w'.
  destruct (onSubmit_updates (fixed_zone 0) (fun _ _ w => (true, w)) (fun _ w => (true, w))
              example_form w "user-1"%string example_existing
              {| client_id_of := 3; client_name_of := "Ana" |}
              {| professional_id_of := 1; professional_name := "Bia" |}
              {| service_id_of := 5; service_name := "Corte";
                 service_price := of_Z 5000; duration := 30 |}
              eq_refl eq_refl eq_refl eq_refl eq_refl eq_refl)
    as (extra & _ & H).
  cbn [fst snd] in H. destruct H as (Ht & Hm & He & _).
  split; [exact Ht |]. split; [exact Hm | exact He].
Defined.

(** ** Opening the modal *)

(** A text that [format] wrote, read again with the offset in force at the
    instant it was written for: the instant, cut to its local minute. *)
Lemma moment_format h x y :
  moment h (format h (Some x)) = Some y ->
  LocalTime h x / Moment.ms_per_minute * Moment.ms_per_minute - y = offset_at h x ->
  y = x - LocalTime h x mod Moment.ms_per_minute.
Proof.
  intros _ Ho.
  pose proof (Z.div_mod (LocalTime h x) Moment.ms_per_minute ltac:(discriminate)) as Hdm.
  unfold LocalTime in *. lia.
Qed.

Lemma format_add_30 h i :
  Z.abs (i + 30 * Moment.ms_per_minute) <= Moment.max_time ->
  offset_at h (i + 30 * Moment.ms_per_minute) = offset_at h i ->
  format h (Moment.add_minutes (Some i) 30)
  = LocalMinute (LocalTime h i / Moment.ms_per_minute + 30).
Proof.
  intros Hrange Ho. cbn [Moment.add_minutes]. rewrite time_clip_in_range by exact Hrange.
  unfold format, LocalTime. rewrite Ho. f_equal.
  replace (i + 30 * Moment.ms_per_minute + offset_at h i)
    with (i + offset_at h i + 30 * Moment.ms_per_minute) by ring.
  apply Z.div_add. discriminate.
Qed.

Lemma handleOpenModal_new_run h slotDate w :
  let initialDate :=
    match slotDate with
    | Some d => Some d
    | None => match w_selectedDate w with Some d => d | None => Some (w_now w) end
    end in
  handleOpenModal h None slotDate w =
  (tt, set_isModalOpen true
         (set_form
            {| f_client_id := None;
               f_professional_id := w_selectedProfessionalId w;
               f_service_id := None;
               f_price := None;
               f_appointment_date := format h initialDate;
               f_end_date := format h (Moment.add_minutes initialDate 30);
               f_attended := Some false |}
            (set_moments
               (w_moments w ++ [initialDate; Moment.add_minutes initialDate 30])
               (set_editingAppointment None w)))).
Proof.
  intros initialDate.
  unfold handleOpenModal, reset, obj_format, bind, gets, modify, new_moment, obj_add,
    nullish. cbv beta iota.
  cbn [w_selectedDate w_now w_selectedProfessionalId set_editingAppointment w_moments
       set_moments].
  change (default (Some (w_now w)) (w_selectedDate w))
    with (match w_selectedDate w with Some d => d | None => Some (w_now w) end).
  fold initialDate.
  set (ms := w_moments w). set (w0 := set_editingAppointment None w).
  repeat change (set_moments ?x (set_moments ?y w0)) with (set_moments x w0).
  rewrite !read_moment_new.
  rewrite insert_last, read_moment_new, <- app_assoc. reflexivity.
Qed.

(** X15. Opening the modal for a new appointment.  The date it starts from is
    the clicked slot, else the chosen day, else now.  The start field shows
    the wall-clock minute of that instant; the end field shows the minute
    30 later, provided that instant plus 30 minutes is within the range of
    [Date] and the zone has the same offset there (no clock changes in
    that half hour); from a chosen day that is the invalid date both
    fields read "Invalid date".  The professional of the filter is filled
    in, the other fields are empty, nothing is being edited and the modal
    is open. *)
Theorem handleOpenModal_new_slot h (slotDate : option Z) (w : World) :
  let initialDate :=
    match slotDate with
    | Some d => Some d
    | None => match w_selectedDate w with Some d => d | None => Some (w_now w) end
    end in
  let w' := snd (handleOpenModal h None slotDate w) in
  (forall i, initialDate = Some i ->
     f_appointment_date (w_form w') = LocalMinute (LocalTime h i / Moment.ms_per_minute) /\
     (Z.abs (i + 30 * Moment.ms_per_minute) <= Moment.max_time ->
      offset_at h (i + 30 * Moment.ms_per_minute) = offset_at h i ->
      f_end_date (w_form w')
        = LocalMinute (LocalTime h i / Moment.ms_per_minute + 30))) /\
  (initialDate = None ->
     f_appointment_date (w_form w') = InvalidDateText /\
     f_end_date (w_form w') = InvalidDateText) /\
  f_professional_id (w_form w') = w_selectedProfessionalId w /\
  f_client_id (w_form w') = None /\ f_service_id (w_form w') = None /\
  f_price (w_form w') = None /\
  w_editingAppointment w' = None /\ w_isModalOpen w' = true /\
  w_appointments w' = w_appointments w.
Proof.
  intros initialDate w'. subst w'. rewrite handleOpenModal_new_run. fold initialDate.
  cbn [snd w_form set_isModalOpen set_form f_appointment_date f_end_date
       f_professional_id f_client_id f_service_id f_price w_editingAppointment
       w_isModalOpen w_appointments set_moments set_editingAppointment].
  split; [| split; [| repeat split]].
  - intros i ->. split; [reflexivity |]. apply format_add_30.
  - intros ->. split; reflexivity.
Qed.

(** The example page, three hours behind UTC, at the epoch: a new
    appointment opens on 21:00 to 21:30 of the evening before. *)
Lemma handleOpenModal_new_slot_witness :
  let h := fixed_zone (-180) in
  let w' := snd (handleOpenModal h None None example_world) in
  f_appointment_date (w_form w') = LocalMinute (-180) /\
  f_end_date (w_form w') = LocalMinute (-150).
Proof.
  intros h w'.
  destruct (handleOpenModal_new_slot h None example_world) as (Hvalid & _).
  destruct (Hvalid 0 eq_refl) as [Hstart Hend].
  split; [exact Hstart |].
  apply Hend; [vm_compute; discriminate | reflexivity].
Defined.

(** New York, 2024-03-10, a slot at 01:45, a quarter of an hour before the
    clock goes forward: the form opens on 01:45 to 03:15. *)
Example handleOpenModal_when_the_clock_goes_forward :
  let w' := snd (handleOpenModal new_york_spring_2024 None (Some 1710053100000)
                   example_world) in
  f_appointment_date (w_form w') = LocalMinute 28500585 /\
  f_end_date (w_form w') = LocalMinute (28500585 + 90).
Proof. split; vm_compute; reflexivity. Qed.

Lemma handleOpenModal_edit_run h a slotDate w :
  handleOpenModal h (Some a) slotDate w =
  (tt, set_isModalOpen true
         (set_form
            {| f_client_id := Some (client_id a);
               f_professional_id := Some (professional_id a);
               f_service_id := Some (service_id a);
               f_price := Some (form_price (price a));
               f_appointment_date := format h (Some (appointment_date a));
               f_end_date := format h (Some (end_date a));
               f_attended := Some (attended a) |}
            (set_moments
               (w_moments w ++ [Some (appointment_date a); Some (end_date a)])
               (set_editingAppointment (Some a) w)))).
Proof.
  unfold handleOpenModal, reset, obj_format, bind, gets, modify, new_moment.
  cbv beta iota.
  cbn [set_editingAppointment w_moments set_moments].
  set (ms := w_moments w). set (w0 := set_editingAppointment (Some a) w).
  repeat change (set_moments ?x (set_moments ?y w0)) with (set_moments x w0).
  rewrite !read_moment_new, <- app_assoc. reflexivity.
Qed.

(** The effect leaves the appointment being edited, the appointments and
    the start of the form as they are. *)
Lemma end_date_effect_keeps h w :
  let w' := snd (end_date_effect h w) in
  w_editingAppointment w' = w_editingAppointment w /\
  w_appointments w' = w_appointments w /\
  f_appointment_date (w_form w') = f_appointment_date (w_form w) /\
  f_professional_id (w_form w') = f_professional_id (w_form w).
Proof.
  intros w'. subst w'.
  destruct (truthy_num (f_service_id (w_form w))) eqn:Hsid.
  - destruct (find (fun s => strict_eq_num (service_id_of s)
                               (Number (f_service_id (w_form w)))) (w_services w))
      as [svc|] eqn:Hfind.
    + rewrite (end_date_effect_found h w svc Hsid Hfind). cbn [snd]. cbv zeta.
      destruct (f_appointment_date (w_form w)) eqn:Hstart; repeat split.
    + rewrite end_date_effect_not_found by exact Hfind. repeat split.
  - rewrite end_date_effect_no_service by exact Hsid. repeat split.
Qed.

(** What the search can find while [a] is being edited. *)
Lemma find_conflicting_not_edited h data w a E :
  w_editingAppointment w = Some a ->
  fst (find_conflicting h data w) = Some E -> id E <> id a.
Proof.
  intros Hed HE.
  destruct (find_conflicting_run h data w) as [extra Hrun].
  rewrite Hrun, Hed in HE. cbn [fst] in HE.
  unfold conflictingAppointment in HE. apply find_some in HE. destruct HE as [_ Hc].
  intros Hid. rewrite conflicts_excluded in Hc; [discriminate |].
  apply excluded_same_id, Hid.
Qed.

(** X16. Opening an appointment and submitting.  Once the appointment is
    loaded, and also after the effect of lines 103-114 has run on the
    loaded form, the appointment is the one being edited, the form carries
    its professional and, as start, the wall-clock minute of its stored
    start; and whatever the form holds when it is submitted, the search for
    a conflict leaves the appointment itself out: what it finds, if
    anything, is an appointment of another id.  Read with the offset in
    force at the stored start, the start of the form is the stored start
    cut to its minute. *)
Theorem handleOpenModal_edit_resubmit h (a : AppointmentType) (slotDate : option Z)
    (w : World) :
  let w1 := snd (handleOpenModal h (Some a) slotDate w) in
  let w2 := snd (end_date_effect h w1) in
  (forall w', w' = w1 \/ w' = w2 ->
     w_editingAppointment w' = Some a /\
     w_appointments w' = w_appointments w /\
     f_professional_id (w_form w') = Some (professional_id a) /\
     f_appointment_date (w_form w')
       = LocalMinute (LocalTime h (appointment_date a) / Moment.ms_per_minute) /\
     (forall data E, fst (find_conflicting h data w') = Some E -> id E <> id a) /\
     (forall y,
        moment h (f_appointment_date (w_form w')) = Some y ->
        LocalTime h (appointment_date a) / Moment.ms_per_minute * Moment.ms_per_minute - y
          = offset_at h (appointment_date a) ->
        y = appointment_date a
            - LocalTime h (appointment_date a) mod Moment.ms_per_minute)).
Proof.
  intros w1 w2.
  assert (H1 : w_editingAppointment w1 = Some a /\
               w_appointments w1 = w_appointments w /\
               f_professional_id (w_form w1) = Some (professional_id a) /\
               f_appointment_date (w_form w1) = format h (Some (appointment_date a))).
  { subst w1. rewrite handleOpenModal_edit_run. repeat split. }
  destruct H1 as (Hed1 & Happs1 & Hpro1 & Hstart1).
  destruct (end_date_effect_keeps h w1) as (Hed2 & Happs2 & Hstart2 & Hpro2).
  fold w2 in Hed2, Happs2, Hstart2, Hpro2.
  assert (Hall : forall w', w' = w1 \/ w' = w2 ->
            w_editingAppointment w' = Some a /\
            w_appointments w' = w_appointments w /\
            f_professional_id (w_form w') = Some (professional_id a) /\
            f_appointment_date (w_form w') = format h (Some (appointment_date a))).
  { intros w' [-> | ->]; [repeat split; assumption |].
    rewrite Hed2, Happs2, Hstart2, Hpro2. repeat split; assumption. }
  intros w' Hw'. destruct (Hall w' Hw') as (Hed & Happs & Hpro & Hstart).
  split; [exact Hed |]. split; [exact Happs |]. split; [exact Hpro |].
  split; [exact Hstart |]. split.
  - intros data E. apply find_conflicting_not_edited, Hed.
  - intros y. rewrite Hstart. apply moment_format.
Qed.

(** The example appointment, 10:00 to 10:30 UTC, opened three hours behind
    UTC: the form starts at 07:00, which is read as the stored start, and
    the search on the loaded form finds nothing although the appointment
    is in the store. *)
Lemma handleOpenModal_edit_resubmit_witness :
  let h := fixed_zone (-180) in
  let w1 := snd (handleOpenModal h (Some example_existing) None example_world) in
  f_appointment_date (w_form w1) = LocalMinute 420 /\
  600 * 60000 = appointment_date example_existing
                - LocalTime h (appointment_date example_existing) mod Moment.ms_per_minute /\
  (forall E, fst (find_conflicting h (w_form w1) w1) = Some E -> id E <> Some 7) /\
  fst (find_conflicting h (w_form w1) w1) = None.
Proof.
  intros h w1.
  destruct (handleOpenModal_edit_resubmit h example_existing None example_world
              w1 (or_introl eq_refl)) as (_ & _ & _ & Hstart & Hfind & Hread).
  split; [exact Hstart |].
  split; [exact (Hread (600 * 60000) eq_refl eq_refl) |].
  split; [exact (Hfind (w_form w1)) | reflexivity].
Defined.

(** In an hour that comes twice, the text does not say which of the two.
    New York, 2024-11-03: a start stored at 01:30 after the clock went back
    (06:30 UTC) loads as 01:30 and is read as 01:30 before it went back,
    an hour earlier. *)
Example loaded_start_in_a_repeated_hour :
  let h := new_york_autumn_2024 in
  format h (Some 1730615400000) = LocalMinute 28843290 /\
  moment h (format h (Some 1730615400000)) = Some (1730615400000 - 3600000).
Proof. split; vm_compute; reflexivity. Qed.

(** X17. Loading an appointment does not protect what it loads: when the
    effect of lines 103-114 runs on the loaded form and finds the
    appointment's service, the price field holds the service's price and
    the end field holds the text derived from the loaded start and the
    service's duration, whatever price and end the appointment was stored
    with.  That text is the loaded start plus the duration, as wall-clock
    minutes, when the loaded start is read as an instant [x], [x] plus the
    duration is within the range of [Date], and local time is there as far
    ahead of UTC as the loaded start is ahead of [x]. *)
Theorem handleOpenModal_edit_then_effect h (a : AppointmentType)
    (slotDate : option Z) (w : World) (svc : ServiceType) :
  service_id a <> 0 ->
  find (fun s => strict_eq_num (service_id_of s) (Some (service_id a))) (w_services w)
    = Some svc ->
  let w1 := snd (handleOpenModal h (Some a) slotDate w) in
  let w2 := snd (end_date_effect h w1) in
  let start := LocalTime h (appointment_date a) / Moment.ms_per_minute in
  f_price (w_form w1) = Some (form_price (price a)) /\
  f_price (w_form w2) = Some (form_price (service_price svc)) /\
  f_end_date (w_form w1)
    = LocalMinute (LocalTime h (end_date a) / Moment.ms_per_minute) /\
  f_end_date (w_form w2) = derive_end_time h (LocalMinute start) svc /\
  (forall x,
     moment h (LocalMinute start) = Some x ->
     Z.abs (x + duration svc * Moment.ms_per_minute) <= Moment.max_time ->
     offset_at h (x + duration svc * Moment.ms_per_minute)
       = start * Moment.ms_per_minute - x ->
     f_end_date (w_form w2) = LocalMinute (start + duration svc)).
Proof.
  intros Hsid Hfind w1 w2 start. subst w2 w1. rewrite handleOpenModal_edit_run. cbn [snd].
  set (w1 := set_isModalOpen true _).
  assert (Ht : truthy_num (f_service_id (w_form w1)) = true).
  { cbn. apply negb_true_iff, Z.eqb_neq, Hsid. }
  rewrite (end_date_effect_found h w1 svc Ht Hfind). cbn [snd]. cbv zeta.
  split; [reflexivity |].
  change (f_appointment_date (w_form w1)) with (LocalMinute start).
  cbn [w_form set_form f_price f_end_date].
  split; [reflexivity |]. split; [reflexivity |]. split; [reflexivity |].
  intros x. apply derive_end_time_minute.
Qed.

Lemma handleOpenModal_edit_then_effect_witness :
  let a := {| id := Some 7; client_id := 3; professional_id := 1; service_id := 5;
              price := of_Z 4000;
              appointment_date := 600 * 60000; end_date := 645 * 60000;
              attended := false;
              client_name := "Ana"; professional := "Bia"; service := "Corte" |} in
  let h := fixed_zone (-180) in
  let w1 := snd (handleOpenModal h (Some a) None example_world) in
  let w2 := snd (end_date_effect h w1) in
  f_price (w_form w1) = Some (form_price (of_Z 4000)) /\
  f_price (w_form w2) = Some (form_price (of_Z 5000)) /\
  f_end_date (w_form w1) = LocalMinute 465 /\
  f_end_date (w_form w2) = LocalMinute 450.
Proof.
  intros a h w1 w2.
  destruct (handleOpenModal_edit_then_effect h a None example_world
              {| service_id_of := 5; service_name := "Corte";
                 service_price := of_Z 5000; duration := 30 |}
              ltac:(discriminate) eq_refl) as (Hp1 & Hp2 & He1 & _ & He2).
  split; [exact Hp1 |]. split; [exact Hp2 |]. split; [exact He1 |].
  apply (He2 (600 * 60000)); [reflexivity | vm_compute; discriminate | reflexivity].
Defined.

(** ** Deleting *)

Lemma handleDeleteConfirm_nothing store_delete s :
  w_user (d_page s) = None \/ d_appointmentToDelete s = None ->
  handleDeleteConfirm store_delete s = s.
Proof.
  unfold handleDeleteConfirm. intros [-> | ->]; [reflexivity |].
  destruct (w_user (d_page s)); reflexivity.
Qed.

(** X18. Confirming a deletion.  Without a signed-in user or without an
    appointment picked for deletion nothing happens.  Otherwise the store's
    [deleteAppointment] is called once with the id of the picked
    appointment; if it resolves, the success toast is shown, the dialog
    closes and forgets the appointment, so that confirming again deletes
    nothing; if it rejects, the error toast is shown and the dialog stays
    open on the same appointment.  Either way the edit modal and the
    appointment being edited are as the store left them. *)
Theorem delete_confirmation store_delete (s : DeletePage) (a : AppointmentType) u :
  w_user (d_page s) = Some u ->
  let s1 := handleDeleteClick a s in
  let s2 := handleDeleteConfirm store_delete s1 in
  let r := store_delete (id a) (d_page s) in
  d_isDeleteModalOpen s1 = true /\
  d_delete_calls s2 = d_delete_calls s ++ [id a] /\
  w_isModalOpen (d_page s2) = w_isModalOpen (snd r) /\
  w_editingAppointment (d_page s2) = w_editingAppointment (snd r) /\
  (if fst r then
     w_toasts (d_page s2) = w_toasts (snd r) ++ [showSuccess "Agendamento removido!"] /\
     d_isDeleteModalOpen s2 = false /\
     d_appointmentToDelete s2 = None /\
     handleDeleteConfirm store_delete s2 = s2
   else
     w_toasts (d_page s2)
       = w_toasts (snd r) ++ [showError "Falha ao remover agendamento." ""] /\
     d_isDeleteModalOpen s2 = true /\
     d_appointmentToDelete s2 = Some a) /\
  (forall s0, w_user (d_page s0) = None \/ d_appointmentToDelete s0 = None ->
              handleDeleteConfirm store_delete s0 = s0).
Proof.
  intros Hu s1 s2 r.
  assert (Hs2 : s2 =
    let calls := d_delete_calls s ++ [id a] in
    if fst r then
      {| d_page := snd (toast (showSuccess "Agendamento removido!") (snd r));
         d_isDeleteModalOpen := false;
         d_appointmentToDelete := None;
         d_delete_calls := calls |}
    else
      {| d_page := snd (toast (showError "Falha ao remover agendamento." "") (snd r));
         d_isDeleteModalOpen := true;
         d_appointmentToDelete := Some a;
         d_delete_calls := calls |}).
  { subst s2 s1 r. unfold handleDeleteConfirm.
    cbn [handleDeleteClick d_page d_appointmentToDelete d_isDeleteModalOpen
         d_delete_calls].
    rewrite Hu. destruct (store_delete (id a) (d_page s)) as [[] w1]; reflexivity. }
  split; [reflexivity |]. rewrite Hs2. cbv zeta.
  destruct (fst r).
  - split; [reflexivity |]. split; [reflexivity |]. split; [reflexivity |].
    split; [| apply handleDeleteConfirm_nothing].
    split; [reflexivity |]. split; [reflexivity |]. split; [reflexivity |].
    apply handleDeleteConfirm_nothing. right. reflexivity.
  - split; [reflexivity |]. split; [reflexivity |]. split; [reflexivity |].
    split; [| apply handleDeleteConfirm_nothing]. repeat split.
Qed.

Lemma delete_confirmation_witness :
  let s := {| d_page := example_world; d_isDeleteModalOpen := false;
              d_appointmentToDelete := None; d_delete_calls := [] |} in
  let s2 := handleDeleteConfirm (fun _ w => (true, w))
              (handleDeleteClick example_existing s) in
  d_delete_calls s2 = [Some 7] /\ d_isDeleteModalOpen s2 = false /\
  d_appointmentToDelete s2 = None.
Proof.
  intros s s2.
  destruct (delete_confirmation (fun _ w => (true, w)) s example_existing
              "user-1"%string eq_refl) as (_ & Hcalls & _ & _ & Hok & _).
  cbn [fst snd] in Hok. destruct Hok as (_ & Hopen & Htarget & _).
  split; [exact Hcalls |]. split; [exact Hopen | exact Htarget].
Defined.
